(** * Image Location Finder: GPS decoding, reverse geocoding and history store

    A shallow embedding of [ImageLocationFinder.py].  The functions keep the
    names of the source: [extract_exif], [_to_float], [convert_to_degrees],
    [get_lat_lon], [get_address], [load_history], [save_history],
    [upload_image], [delete_entry] and [refresh_history].  Python
    exceptions are results of an error monad, the module-level [history]
    list and the file [history.json] are an explicit state, and the
    collaborators the script only calls (the text parser of [float], the
    decoder of [json], the HTTP endpoint, the widgets) are section
    variables.  The encoder of [json], whose pieces decide what is left in
    the file when a write fails, is written out. *)

From Stdlib Require Import ZArith List String Ascii Bool Floats Lia.
From Stdlib Require Import DecimalString.
Import ListNotations.

Local Open Scope string_scope.
Local Open Scope Z_scope.

(** ** Exceptions

    Every exception class the modelled operations raise derives from
    [Exception], so an [except Exception] clause catches each of them. *)

Inductive exn : Type :=
| TypeError
| ValueError
| KeyError
| IndexError
| ZeroDivisionError
| OverflowError
| AttributeError
| RequestException
| UnicodeEncodeError.

(** [UnicodeEncodeError] derives from [ValueError]: an [except ValueError]
    clause catches both. *)
Definition is_ValueError (e : exn) : bool :=
  match e with
  | ValueError | UnicodeEncodeError => true
  | _ => false
  end.

Inductive res (A : Type) : Type :=
| Ok (a : A)
| Raise (e : exn).

Arguments Ok {A} a.
Arguments Raise {A} e.

Definition bind {A B : Type} (c : res A) (k : A -> res B) : res B :=
  match c with
  | Ok a => k a
  | Raise e => Raise e
  end.

(** [try: c  except Exception: h] *)
Definition try_except {A : Type} (c : res A) (h : res A) : res A :=
  match c with
  | Ok a => Ok a
  | Raise _ => h
  end.

Declare Scope res_scope.
Delimit Scope res_scope with res.
Notation "x <- c ;; k" := (bind c (fun x => k))
  (at level 61, c at next level, right associativity) : res_scope.
Notation "'try' c 'except' h" := (try_except c h)
  (at level 62, c at level 61, h at level 62) : res_scope.

(** ** Texts

    A [str] is held as its UTF-8 encoding, one [ascii] per byte, which is
    how a text literal of this file is read too.  A lone surrogate, which
    a [str] may hold and UTF-8 proper has no encoding for, is held as the
    three bytes the same scheme gives it (the first 237, the second from
    160 on), so that a text with such a character can be told from any
    other.  A [bytes] object is held byte by byte. *)

Definition byte_of (c : ascii) : Z := Z.of_nat (nat_of_ascii c).

(** A byte that goes on a character begun before it. *)
Definition is_continuation (c : ascii) : bool :=
  (128 <=? byte_of c) && (byte_of c <? 192).

(** The characters of a text, each with all its bytes. *)
Fixpoint chars (s : string) : list string :=
  match s with
  | EmptyString => []
  | String c s' =>
      match s' with
      | EmptyString => [String c EmptyString]
      | String c' _ =>
          if is_continuation c'
          then match chars s' with
               | g :: gs => String c g :: gs
               | [] => [String c EmptyString]
               end
          else String c EmptyString :: chars s'
      end
  end.

(** The text holds a surrogate, which the UTF-8 codec refuses to encode. *)
Fixpoint has_surrogate (s : string) : bool :=
  match s with
  | EmptyString => false
  | String c s' =>
      match s' with
      | String c' _ =>
          ((byte_of c =? 237) && (160 <=? byte_of c')) || has_surrogate s'
      | EmptyString => false
      end
  end.

(** Every byte is below 128. *)
Fixpoint is_ascii (s : string) : bool :=
  match s with
  | EmptyString => true
  | String c s' => (byte_of c <? 128) && is_ascii s'
  end.

(** ** Python values found in an EXIF tag table

    [VFloat] also stands for any numeric object that [float] accepts through
    its own conversion and that cannot be subscripted (Pillow hands out EXIF
    rationals as such objects): the code only converts a component with
    [float], subscripts it, tests its truth value or compares it with a text,
    and on all four such an object behaves as the float it converts to.
    Dictionaries are keyed by text, in insertion order; the lookups of the
    code all use text keys. *)

#[local] Set Warnings "-register-all".

Inductive value : Type :=
| VNone
| VBool (b : bool)
| VInt (n : Z)
| VFloat (f : float)
| VStr (s : string)
| VBytes (s : string)
| VTuple (xs : list value)
| VList (xs : list value)
| VDict (kvs : list (string * value)).

Definition dict : Type := list (string * value).

Fixpoint dict_lookup {A : Type} (k : string) (d : list (string * A)) : option A :=
  match d with
  | [] => None
  | (k', v) :: d' => if String.eqb k k' then Some v else dict_lookup k d'
  end.

(** [bool(x)] *)
Definition truthy (x : value) : bool :=
  match x with
  | VNone => false
  | VBool b => b
  | VInt n => negb (n =? 0)
  | VFloat f => negb (PrimFloat.eqb f 0)
  | VStr s | VBytes s => negb (String.eqb s "")
  | VTuple xs | VList xs => negb (Nat.eqb (List.length xs) 0)
  | VDict kvs => negb (Nat.eqb (List.length kvs) 0)
  end.

(** [x != s] for a text literal [s]: only a [str] can equal a [str]. *)
Definition ne_str (x : value) (s : string) : bool :=
  match x with
  | VStr t => negb (String.eqb t s)
  | _ => true
  end.

(** [float(n)] for an integer: the nearest binary64 value, ties to even;
    [OverflowError] when that is beyond the largest finite float. *)
Definition float_of_Z (n : Z) : option float :=
  match binary_normalize prec emax n 0 false with
  | S754_infinity _ => None
  | sf => Some (SF2Prim sf)
  end.

(** [a / b] on floats: a zero divisor of either sign raises. *)
Definition float_div (a b : float) : res float :=
  if PrimFloat.eqb b 0 then Raise ZeroDivisionError else Ok (a / b)%float.

(** [x[i]] for a literal index [i >= 0]: the character of a text, the byte
    of a byte string as an integer, the item of a sequence. *)
Definition getitem (x : value) (i : nat) : res value :=
  match x with
  | VStr s =>
      match nth_error (chars s) i with
      | Some c => Ok (VStr c)
      | None => Raise IndexError
      end
  | VBytes s =>
      match String.get i s with
      | Some c => Ok (VInt (byte_of c))
      | None => Raise IndexError
      end
  | VTuple xs | VList xs =>
      match nth_error xs i with
      | Some v => Ok v
      | None => Raise IndexError
      end
  | VDict _ => Raise KeyError
  | VNone | VBool _ | VInt _ | VFloat _ => Raise TypeError
  end.

(** [x[k]] for a text key [k]. *)
Definition getkey (x : value) (k : string) : res value :=
  match x with
  | VDict kvs =>
      match dict_lookup k kvs with
      | Some v => Ok v
      | None => Raise KeyError
      end
  | _ => Raise TypeError
  end.

(** [x.get(k)]: only a dictionary has the method. *)
Definition get_method (x : value) (k : string) : res value :=
  match x with
  | VDict kvs =>
      match dict_lookup k kvs with
      | Some v => Ok v
      | None => Ok VNone
      end
  | _ => Raise AttributeError
  end.

(** ** Coordinate decoder *)

Section Decoder.

(** [float(s)] for a text [s]: the interpreter's parser of decimal
    literals, [None] for [ValueError].  A byte string goes through the same
    parser when all its bytes are ASCII, where a text and a byte string
    read the same; a byte from 128 on is no digit, sign or blank of a byte
    string, and [float] rejects it. *)
Variable float_of_text : string -> option float.

Local Open Scope res_scope.

(** [float(x)] *)
Definition py_float (x : value) : res float :=
  match x with
  | VBool b => Ok (if b then 1 else 0)%float
  | VInt n =>
      match float_of_Z n with
      | Some f => Ok f
      | None => Raise OverflowError
      end
  | VFloat f => Ok f
  | VStr s =>
      match float_of_text s with
      | Some f => Ok f
      | None => Raise ValueError
      end
  | VBytes s =>
      if is_ascii s
      then match float_of_text s with
           | Some f => Ok f
           | None => Raise ValueError
           end
      else Raise ValueError
  | VNone | VTuple _ | VList _ | VDict _ => Raise TypeError
  end.

Definition _to_float (x : value) : res (option float) :=
  try (f <- py_float x ;; Ok (Some f))
  except (try (a <- getitem x 0 ;;
               fa <- py_float a ;;
               b <- getitem x 1 ;;
               fb <- py_float b ;;
               q <- float_div fa fb ;;
               Ok (Some q))
          except Ok None).

Definition convert_to_degrees (v : value) : res (option float) :=
  try (v0 <- getitem v 0 ;;
       d <- _to_float v0 ;;
       v1 <- getitem v 1 ;;
       m <- _to_float v1 ;;
       v2 <- getitem v 2 ;;
       s <- _to_float v2 ;;
       match d, m, s with
       | Some d, Some m, Some s => Ok (Some (d + (m / 60) + (s / 3600))%float)
       | _, _, _ => Ok None
       end)
  except Ok None.

(** [lat = -lat] under [if gps.get(ref) and gps[ref] != positive]. *)
Definition hemisphere (gps : value) (ref positive : string) (x : float)
  : res float :=
  r <- get_method gps ref ;;
  if truthy r
  then (r' <- getkey gps ref ;;
        Ok (if ne_str r' positive then (- x)%float else x))
  else Ok x.

(** [exif.get("GPSInfo") or {}] *)
Definition gps_table (exif : dict) : value :=
  match dict_lookup "GPSInfo" exif with
  | Some g => if truthy g then g else VDict []
  | None => VDict []
  end.

Definition get_lat_lon (exif : dict) : res (option (float * float)) :=
  let gps := gps_table exif in
  try (vlat <- getkey gps "GPSLatitude" ;;
       lat <- convert_to_degrees vlat ;;
       vlon <- getkey gps "GPSLongitude" ;;
       lon <- convert_to_degrees vlon ;;
       match lat, lon with
       | Some lat, Some lon =>
           lat <- hemisphere gps "GPSLatitudeRef" "N" lat ;;
           lon <- hemisphere gps "GPSLongitudeRef" "E" lon ;;
           Ok (Some (lat, lon))
       | _, _ => Ok None
       end)
  except Ok None.

End Decoder.

(** ** The decoder's contract, in the words of the specification *)

(** [degrees + minutes/60 + seconds/3600] *)
Definition dms (d m s : float) : float := (d + m / 60 + s / 3600)%float.

(** A plain numeric component is used as it is. *)
Definition number (v : value) : option float :=
  match v with
  | VInt n => float_of_Z n
  | VFloat f => Some f
  | _ => None
  end.

(** A component is a plain number, or a pair (numerator, denominator) of
    plain numbers converted by division. *)
Definition component_value (v : value) : option float :=
  match v with
  | VTuple [a; b] =>
      match number a, number b with
      | Some fa, Some fb =>
          if PrimFloat.eqb fb 0 then None else Some (fa / fb)%float
      | _, _ => None
      end
  | _ => number v
  end.

(** The hemisphere rule: a reference tag that is present, non-empty and not
    the positive hemisphere's letter negates the coordinate. *)
Definition signed (ref : option value) (positive : string) (x : float) : float :=
  match ref with
  | Some r => if truthy r && ne_str r positive then (- x)%float else x
  | None => x
  end.

(** Malformed, in the words of the claim: neither numeric nor a ratio-like
    pair (numerator, denominator). *)
Definition numeric (v : value) : bool :=
  match v with
  | VBool _ | VInt _ | VFloat _ => true
  | _ => false
  end.

Definition ratio_like_pair (v : value) : bool :=
  match v with
  | VTuple [a; b] | VList [a; b] => numeric a && numeric b
  | _ => false
  end.

Definition malformed (v : value) : bool :=
  negb (numeric v) && negb (ratio_like_pair v).

Section NoValue.

Variable float_of_text : string -> option float.

(** [float] accepts it. *)
Definition accepted (x : value) : bool :=
  match py_float float_of_text x with
  | Ok _ => true
  | Raise _ => false
  end.

(** Its first and second part are there, [float] accepts both and the
    second is not zero. *)
Definition has_quotient (x : value) : bool :=
  match getitem x 0, getitem x 1 with
  | Ok a, Ok b =>
      match py_float float_of_text a, py_float float_of_text b with
      | Ok _, Ok fb => negb (PrimFloat.eqb fb 0)
      | _, _ => false
      end
  | _, _ => false
  end.

(** What the code makes no value of. *)
Definition no_value (x : value) : bool :=
  negb (accepted x) && negb (has_quotient x).

(** One of the three components of the triple [v] has no value. *)
Definition has_component_without_value (v : value) : Prop :=
  exists (i : nat) (c : value),
    (i < 3)%nat /\ getitem v i = Ok c /\ no_value c = true.

End NoValue.

(** ** JSON values

    What [json.load] and [r.json()] return and what [json.dump] accepts
    without a custom encoder: the items of the history and the body of a
    geocoder response.  An object keeps its members in insertion order.

    Python compares the items of a list and the values of a [dict] with
    [x is y or x == y], and a NaN is the one value that is not [==] to
    itself, so which object a NaN is can be observed.  The decoder of the
    [json] module hands out one and the same object for every [NaN] it
    reads: that object is [JFloat nan].  A NaN that arithmetic made is an
    object of its own: [JNaN o], the object number [o]. *)

Inductive json : Type :=
| JNull
| JBool (b : bool)
| JInt (n : Z)
| JFloat (f : float)
| JNaN (o : Z)
| JStr (s : string)
| JArr (xs : list json)
| JObj (kvs : list (string * json)).

Definition is_nan (f : float) : bool := negb (PrimFloat.eqb f f).

(** The float object number [o] that arithmetic made, holding [f]. *)
Definition float_object (o : Z) (f : float) : json :=
  if is_nan f then JNaN o else JFloat f.

(** The float a JSON number object holds. *)
Definition float_value (j : json) : option float :=
  match j with
  | JFloat f => Some f
  | JNaN _ => Some nan
  | _ => None
  end.

(** [f == n] for a float and an integer, which Python compares exactly. *)
Definition float_eq_Z (f : float) (n : Z) : bool :=
  match Prim2SF f with
  | S754_zero _ => n =? 0
  | S754_finite s m e =>
      let z := cond_Zopp s (Zpos m) in
      if 0 <=? e then n =? z * 2 ^ e else n * 2 ^ (- e) =? z
  | S754_infinity _ | S754_nan => false
  end.

Definition as_number (j : json) : option (Z + float) :=
  match j with
  | JBool b => Some (inl (Z.b2z b))
  | JInt n => Some (inl n)
  | JFloat f => Some (inr f)
  | _ => None
  end.

Definition num_eq (a b : Z + float) : bool :=
  match a, b with
  | inl n, inl m => n =? m
  | inl n, inr f | inr f, inl n => float_eq_Z f n
  | inr f, inr g => PrimFloat.eqb f g || (is_nan f && is_nan g)
  end.

(** [a is b or a == b], the test of [list.remove] and of the comparison of
    lists and dictionaries: numbers compare by value across [bool], [int]
    and [float], a NaN equals the very same object only, arrays compare
    element by element, objects member by member whatever the order. *)
Fixpoint py_eq (a b : json) {struct a} : bool :=
  match a, b with
  | JNull, JNull => true
  | JNaN o, JNaN o' => o =? o'
  | JStr s, JStr t => String.eqb s t
  | JArr xs, JArr ys =>
      (fix all2 (xs ys : list json) {struct xs} : bool :=
         match xs, ys with
         | [], [] => true
         | x :: xs', y :: ys' => py_eq x y && all2 xs' ys'
         | _, _ => false
         end) xs ys
  | JObj kvs, JObj kvs' =>
      Nat.eqb (List.length kvs) (List.length kvs')
      && (fix members (l : list (string * json)) {struct l} : bool :=
            match l with
            | [] => true
            | (k, v) :: l' =>
                match dict_lookup k kvs' with
                | Some w => py_eq v w
                | None => false
                end && members l'
            end) kvs
  | _, _ =>
      match as_number a, as_number b with
      | Some x, Some y => num_eq x y
      | _, _ => false
      end
  end.

Fixpoint keys_distinct (ks : list string) : bool :=
  match ks with
  | [] => true
  | k :: ks' => negb (existsb (String.eqb k) ks') && keys_distinct ks'
  end.

(** The member lists that are those of a [dict]: no key twice. *)
Fixpoint well_formed (j : json) : bool :=
  match j with
  | JArr xs => forallb well_formed xs
  | JObj kvs =>
      keys_distinct (map fst kvs)
      && forallb (fun kv => well_formed (snd kv)) kvs
  | _ => true
  end.

(** The value as the decoder builds it from its text: every NaN is the
    decoder's own. *)
Fixpoint reloaded (j : json) : json :=
  match j with
  | JNaN _ => JFloat nan
  | JArr xs => JArr (map reloaded xs)
  | JObj kvs => JObj (map (fun kv => (fst kv, reloaded (snd kv))) kvs)
  | _ => j
  end.

(** Every text of the value, keys included, can be encoded in UTF-8. *)
Fixpoint writable (j : json) : bool :=
  match j with
  | JStr s => negb (has_surrogate s)
  | JArr xs => forallb writable xs
  | JObj kvs =>
      forallb (fun kv => negb (has_surrogate (fst kv)) && writable (snd kv)) kvs
  | _ => true
  end.

(** [l.remove(x)]: drops the first item [y] with [y is x or y == x];
    [None] stands for the [ValueError] raised when there is none. *)
Fixpoint list_remove (x : json) (l : list json) : option (list json) :=
  match l with
  | [] => None
  | y :: l' =>
      if py_eq y x then Some l'
      else option_map (cons y) (list_remove x l')
  end.

(** [x[k]] and [x.get(k, default)] on a JSON value. *)
Definition json_getkey (x : json) (k : string) : res json :=
  match x with
  | JObj kvs =>
      match dict_lookup k kvs with
      | Some v => Ok v
      | None => Raise KeyError
      end
  | _ => Raise TypeError
  end.

Definition json_get (x : json) (k : string) (default : json) : res json :=
  match x with
  | JObj kvs =>
      match dict_lookup k kvs with
      | Some v => Ok v
      | None => Ok default
      end
  | _ => Raise AttributeError
  end.

(** ** The text of the document

    [json.dump(h, f, ensure_ascii=False, indent=2)] hands the file object
    the text of [h] piece by piece; the pieces are those of the encoder of
    the [json] module, which is written in Python when an indent is
    given. *)

Definition quote : string := String (ascii_of_nat 34) EmptyString.

Definition backslash : string := String (ascii_of_nat 92) EmptyString.

Definition newline : string := String (ascii_of_nat 10) EmptyString.

Fixpoint spaces (n : nat) : string :=
  match n with
  | O => EmptyString
  | S n' => String " " (spaces n')
  end.

(** A new line and the indent of a nesting level, two spaces each. *)
Definition newline_indent (level : nat) : string :=
  newline ++ spaces (2 * level).

Fixpoint cat (ps : list string) : string :=
  match ps with
  | [] => EmptyString
  | p :: ps' => p ++ cat ps'
  end.

Definition hex_digit (n : Z) : string :=
  String (ascii_of_nat (Z.to_nat (if n <? 10 then 48 + n else 87 + n)))
    EmptyString.

(** The escape of one byte: a name for the quote, the backslash and five
    control characters, four hexadecimal digits for the other bytes below
    32, and every other byte as it is. *)
Definition escape (c : ascii) : string :=
  let n := byte_of c in
  if n =? 34 then backslash ++ quote
  else if n =? 92 then backslash ++ backslash
  else if n =? 8 then backslash ++ "b"
  else if n =? 12 then backslash ++ "f"
  else if n =? 10 then backslash ++ "n"
  else if n =? 13 then backslash ++ "r"
  else if n =? 9 then backslash ++ "t"
  else if n <? 32 then backslash ++ "u00" ++ hex_digit (n / 16) ++ hex_digit (n mod 16)
  else String c EmptyString.

Fixpoint escaped (s : string) : string :=
  match s with
  | EmptyString => EmptyString
  | String c s' => escape c ++ escaped s'
  end.

(** [encode_basestring], the encoder of a text under [ensure_ascii=False] *)
Definition encode_basestring (s : string) : string :=
  quote ++ escaped s ++ quote.

(** [int.__repr__] *)
Definition int_repr (n : Z) : string := NilZero.string_of_int (Z.to_int n).

Section Encoder.

(** [float.__repr__] on a finite float: the shortest decimal that reads
    back as the float. *)
Variable float_repr : float -> string.

Definition floatstr (f : float) : string :=
  if is_nan f then "NaN"
  else if PrimFloat.eqb f infinity then "Infinity"
  else if PrimFloat.eqb f neg_infinity then "-Infinity"
  else float_repr f.

(** The text of a value that is no list and no dictionary. *)
Definition scalar (j : json) : option string :=
  match j with
  | JNull => Some "null"
  | JBool b => Some (if b then "true" else "false")
  | JInt n => Some (int_repr n)
  | JFloat f => Some (floatstr f)
  | JNaN _ => Some "NaN"
  | JStr s => Some (encode_basestring s)
  | JArr _ | JObj _ => None
  end.

(** The loop of [_iterencode_list]: a scalar item goes out in one piece
    with what separates it from the item before, [buf]; a list or a
    dictionary goes out after [buf], in its own pieces. *)
Definition items (enc : json -> list string) (sep : string)
  : string -> list json -> list string :=
  fix go (buf : string) (l : list json) {struct l} : list string :=
    match l with
    | [] => []
    | x :: l' =>
        app match scalar x with
            | Some t => [buf ++ t]
            | None => buf :: enc x
            end
            (go sep l')
    end.

(** The loop of [_iterencode_dict]: the separator, the key, the colon and
    the value each go out on their own. *)
Definition members (enc : json -> list string) (sep : string)
  : bool -> list (string * json) -> list string :=
  fix go (first : bool) (l : list (string * json)) {struct l} : list string :=
    match l with
    | [] => []
    | (k, v) :: l' =>
        app (if first then [] else [sep])
            (encode_basestring k :: ": " :: app (enc v) (go false l'))
    end.

(** [_iterencode(j, level)]: the pieces of the text of [j]. *)
Fixpoint pieces (level : nat) (j : json) : list string :=
  match j with
  | JArr [] => ["[]"]
  | JArr xs =>
      app (items (pieces (S level)) ("," ++ newline_indent (S level))
             ("[" ++ newline_indent (S level)) xs)
          [newline_indent level; "]"]
  | JObj [] => ["{}"]
  | JObj kvs =>
      "{" :: newline_indent (S level)
      :: app (members (pieces (S level)) ("," ++ newline_indent (S level))
                true kvs)
             [newline_indent level; "}"]
  | _ =>
      match scalar j with
      | Some t => [t]
      | None => []
      end
  end.

(** The whole text. *)
Definition dumps (j : json) : string := cat (pieces 0 j).

(** What reaches the file: the pieces up to the first one that holds a
    surrogate, and whether that was all of them. *)
Fixpoint write_all (ps : list string) : string * bool :=
  match ps with
  | [] => (EmptyString, true)
  | p :: ps' =>
      if has_surrogate p then (EmptyString, false)
      else (p ++ fst (write_all ps'), snd (write_all ps'))
  end.

Definition dumps_partial (j : json) : string := fst (write_all (pieces 0 j)).

End Encoder.

(** The texts of [l], with [sep] between one and the next. *)
Fixpoint join (sep : string) (l : list string) : string :=
  match l with
  | [] => EmptyString
  | [p] => p
  | p :: l' => p ++ sep ++ join sep l'
  end.

(** A stand-in for [float.__repr__] in the examples: the mantissa and the
    binary exponent of the float, both in decimal. *)
Definition exact_repr (f : float) : string :=
  match Prim2SF f with
  | S754_finite s m e =>
      (if s then "-" else "") ++ int_repr (Zpos m) ++ "p" ++ int_repr e
  | S754_zero s => if s then "-0.0" else "0.0"
  | S754_infinity _ | S754_nan => "nan"
  end.

(** ** Geocode client *)

(** What [requests.get] does: it raises, or it returns a response with a
    status code and a body that [r.json()] decodes ([None] when the body is
    not JSON and [r.json()] raises).  The body is decoded by the [json]
    module, as [history.json] is. *)
Inductive http_result : Type :=
| NetworkError
| Response (status_code : Z) (body : option json).

Definition ADDRESS_NOT_FOUND : string := "Address not found".

Definition get_address (requests_get : float -> float -> http_result)
    (lat lon : float) : res json :=
  (try (match requests_get lat lon with
        | NetworkError => Raise RequestException
        | Response status_code body =>
            if status_code =? 200
            then (data <- match body with
                          | Some j => Ok j
                          | None => Raise ValueError
                          end ;;
                  json_get data "display_name" (JStr ADDRESS_NOT_FOUND))
            else Ok (JStr ADDRESS_NOT_FOUND)
        end)
   except Ok (JStr ADDRESS_NOT_FOUND))%res.

(** ** History store and the two user actions *)

Definition NO_GPS_REASON_TEXT : string :=
  "No GPS data found because:" ++ String (ascii_of_nat 10)
    ("1) The sender stripped location data before sending, OR"
     ++ String (ascii_of_nat 10)
       "2) The camera’s location setting was OFF when the photo was taken.").

(** [os.path.basename(p)]: what follows the last slash (the file dialog
    hands out slash-separated paths). *)
Fixpoint basename (p : string) : string :=
  match p with
  | EmptyString => EmptyString
  | String c p' =>
      if existsb (Ascii.eqb "/") (list_ascii_of_string p')
      then basename p'
      else if Ascii.eqb c "/" then p' else p
  end.

(** The text of [status_label]. *)
Inductive label : Type :=
| NoLabel
| NoFileSelected
| SavedNoGps (name : string)
| Saved (name : string)
| Deleted (name : json).

Section Store.

(** The content of [history.json], and the [json] codec: [json_dump h] is
    the text [json.dump(h, f, ensure_ascii=False, indent=2)] makes of [h],
    [json_partial h] the part of it that reaches the file when a text of
    [h] cannot be encoded (what was written before that text), and
    [json_load d] what [json.load] makes of a file holding [d] ([None]
    when opening, decoding or parsing raises).  The model has no full disk
    and no read-only folder: the file can always be opened for writing. *)
Variable doc : Type.
Variable json_dump : json -> doc.
Variable json_partial : json -> doc.
Variable json_load : doc -> option json.

(** [refresh_history()], the presentation layer: it redraws the rows from
    the history, and raises when an item lacks what a row shows. *)
Variable refresh_history : json -> res unit.

Variable float_of_text : string -> option float.
Variable requests_get : float -> float -> http_result.

(** The module-level [history], the file ([None]: no such file), the
    status line, and the number the next float object that outlives a call
    will get (see [JNaN]). *)
Record state : Type := State {
  history : json;
  file : option doc;
  status : label;
  next_id : Z
}.

(** An action runs on the state; an exception leaves the changes made
    before it in place. *)
Definition act (A : Type) : Type := state -> res A * state.

Definition act_ret {A : Type} (a : A) : act A := fun st => (Ok a, st).

Definition act_bind {A B : Type} (c : act A) (k : A -> act B) : act B :=
  fun st =>
    match c st with
    | (Ok a, st') => k a st'
    | (Raise e, st') => (Raise e, st')
    end.

Definition lift {A : Type} (r : res A) : act A := fun st => (r, st).

(** [try: c  except ValueError: pass] *)
Definition except_ValueError_pass (c : act unit) : act unit :=
  fun st =>
    match c st with
    | (Raise e, st') => if is_ValueError e then (Ok tt, st') else (Raise e, st')
    | r => r
    end.

Definition set_status (l : label) : act unit :=
  fun st => (Ok tt, State (history st) (file st) l (next_id st)).

(** A float that arithmetic made, as the object it is. *)
Definition new_float (f : float) : act json :=
  fun st =>
    (Ok (float_object (next_id st) f),
     State (history st) (file st) (status st) (next_id st + 1)).

Definition load_history (f : option doc) : json :=
  match f with
  | Some d =>
      match json_load d with
      | Some j => j
      | None => JArr []
      end
  | None => JArr []
  end.

(** [open(SAVE_FILE, "w", encoding="utf-8")] empties the file, [json.dump]
    writes the text piece by piece, and the file object raises
    [UnicodeEncodeError] at the first piece it cannot encode; what was
    written before stays. *)
Definition save_history : act unit :=
  fun st =>
    if writable (history st)
    then (Ok tt,
          State (history st) (Some (json_dump (history st))) (status st)
            (next_id st))
    else (Raise UnicodeEncodeError,
          State (history st) (Some (json_partial (history st))) (status st)
            (next_id st)).

(** [history.append(item)] and [history.remove(item)]: methods of a list. *)
Definition history_append (item : json) : act unit :=
  fun st =>
    match history st with
    | JArr l =>
        (Ok tt, State (JArr (l ++ [item])) (file st) (status st) (next_id st))
    | _ => (Raise AttributeError, st)
    end.

Definition history_remove (item : json) : act unit :=
  fun st =>
    match history st with
    | JArr l =>
        match list_remove item l with
        | Some l' => (Ok tt, State (JArr l') (file st) (status st) (next_id st))
        | None => (Raise ValueError, st)
        end
    | _ => (Raise AttributeError, st)
    end.

Definition redraw : act unit := fun st => (refresh_history (history st), st).

Definition no_gps_item (file_path : string) : json :=
  JObj [("status", JStr "no_gps");
        ("name", JStr (basename file_path));
        ("path", JStr file_path);
        ("reason", JStr NO_GPS_REASON_TEXT)].

Definition ok_item (file_path : string) (lat lon address : json) : json :=
  JObj [("status", JStr "ok");
        ("name", JStr (basename file_path));
        ("path", JStr file_path);
        ("lat", lat);
        ("lon", lon);
        ("address", address)].

Declare Scope act_scope.
Delimit Scope act_scope with act.
Notation "x <- c ;; k" := (act_bind c (fun x => k))
  (at level 61, c at next level, right associativity) : act_scope.
Notation "c ;;; k" := (act_bind c (fun _ => k))
  (at level 61, right associativity) : act_scope.
Local Open Scope act_scope.

(** [file_path] is what the file dialog returned (empty when the user
    cancelled) and [exif] what [extract_exif(file_path)] returned. *)
Definition upload_image (file_path : string) (exif : dict) : act unit :=
  if String.eqb file_path ""
  then set_status NoFileSelected
  else
    coords <- lift (get_lat_lon float_of_text exif) ;;
    match coords with
    | None =>
        let item := no_gps_item file_path in
        history_append item ;;;
        save_history ;;;
        set_status (SavedNoGps (basename file_path)) ;;;
        redraw
    | Some (lat, lon) =>
        lat' <- new_float lat ;;
        lon' <- new_float lon ;;
        address <- lift (get_address requests_get lat lon) ;;
        let item := ok_item file_path lat' lon' address in
        history_append item ;;;
        save_history ;;;
        set_status (Saved (basename file_path)) ;;;
        redraw
    end.

(** [confirm] is the answer to the confirmation dialog. *)
Definition delete_entry (confirm : bool) (item : json) : act unit :=
  name <- lift (json_getkey item "name") ;;
  if confirm
  then except_ValueError_pass
         (history_remove item ;;;
          save_history ;;;
          redraw ;;;
          set_status (Deleted name))
  else act_ret tt.

(** The state the script starts in: [history = load_history()]. *)
Definition start (f : option doc) : state := State (load_history f) f NoLabel 0.

End Store.

Arguments State {doc} history file status next_id.
Arguments history {doc} s.
Arguments file {doc} s.
Arguments status {doc} s.
Arguments next_id {doc} s.
Arguments act_bind {doc A B} c k st.
Arguments load_history {doc} json_load f.
Arguments save_history {doc} json_dump json_partial st.
Arguments history_append {doc} item st.
Arguments history_remove {doc} item st.
Arguments upload_image {doc} json_dump json_partial refresh_history float_of_text
  requests_get file_path exif st.
Arguments delete_entry {doc} json_dump json_partial refresh_history confirm item st.
Arguments start {doc} json_load f.


(** ** The store's contract, in the words of the specification *)

(** How many items of [l] equal [x]. *)
Definition count_eq (x : json) (l : list json) : nat :=
  List.length (filter (fun y => py_eq y x) l).

(** A sequence, as opposed to any other JSON value. *)
Definition is_sequence (j : json) : bool :=
  match j with
  | JArr _ => true
  | _ => false
  end.

(** A path whose last character is a slash. *)
Fixpoint ends_with_slash (p : string) : bool :=
  match p with
  | EmptyString => false
  | String c EmptyString => Ascii.eqb c "/"
  | String _ p' => ends_with_slash p'
  end.

(** A text, as opposed to any other JSON value. *)
Definition is_text (j : json) : bool :=
  match j with
  | JStr _ => true
  | _ => false
  end.

(** ** Inputs for the examples *)

(** A text parser that accepts nothing.  No example below puts a text where
    [float] is applied, so every parser gives the same results on them. *)
Definition no_text : string -> option float := fun _ => None.

Definition exif_of (gps : dict) : dict := [("GPSInfo", VDict gps)].

(** 40 deg 26' 46'' as integers, 79 deg 58' 36'' as (numerator, denominator)
    pairs. *)
Definition lat_40_26_46 : value := VTuple [VInt 40; VInt 26; VInt 46].

Definition lon_79_58_36 : value :=
  VTuple [VTuple [VInt 79; VInt 1]; VTuple [VInt 58; VInt 1]; VTuple [VInt 36; VInt 1]].

Definition gps_refs (latref lonref : string) : dict :=
  [("GPSLatitudeRef", VStr latref);
   ("GPSLatitude", lat_40_26_46);
   ("GPSLongitudeRef", VStr lonref);
   ("GPSLongitude", lon_79_58_36)].

(** No reference tags at all. *)
Definition gps_no_refs : dict :=
  [("GPSLatitude", lat_40_26_46); ("GPSLongitude", lon_79_58_36)].

(** No longitude. *)
Definition gps_no_longitude : dict :=
  [("GPSLatitudeRef", VStr "N"); ("GPSLatitude", lat_40_26_46)].

(** Degrees of latitude in three parts, which is neither a number nor a
    pair: the code divides the first part by the second. *)
Definition gps_three_parts : dict :=
  [("GPSLatitude", VTuple [VTuple [VInt 81; VInt 2; VInt 3]; VInt 26; VInt 46]);
   ("GPSLongitude", lon_79_58_36)].

(** Seconds of latitude that are neither a number nor a pair. *)
Definition gps_bad_seconds : dict :=
  [("GPSLatitude", VTuple [VInt 40; VInt 26; VNone]);
   ("GPSLongitude", lon_79_58_36)].

(** Minutes of longitude with a zero denominator. *)
Definition gps_zero_denominator : dict :=
  [("GPSLatitude", lat_40_26_46);
   ("GPSLongitude", VTuple [VInt 79; VTuple [VInt 58; VInt 0]; VInt 36])].

(** A latitude of 100 degrees. *)
Definition gps_100_degrees : dict :=
  [("GPSLatitudeRef", VStr "N");
   ("GPSLatitude", VTuple [VInt 100; VInt 0; VInt 0]);
   ("GPSLongitudeRef", VStr "E");
   ("GPSLongitude", VTuple [VInt 0; VInt 0; VInt 0])].

(** A codec to run the examples with: a document is the JSON value it
    encodes, or a text that does not parse, such as one that stops short. *)
Inductive text : Type :=
| Garbage
| Encoded (j : json).

Definition encode (j : json) : text := Encoded (reloaded j).

Definition cut_short (j : json) : text := Garbage.

Definition decode (t : text) : option json :=
  match t with
  | Garbage => None
  | Encoded j => Some (reloaded j)
  end.

(** Rows that always draw, and an endpoint that cannot be reached. *)
Definition draw (h : json) : res unit := Ok tt.

Definition offline (lat lon : float) : http_result := NetworkError.

(** An endpoint that answers 200 with a given body. *)
Definition answers (body : json) (lat lon : float) : http_result :=
  Response 200 (Some body).

(** Two photographs without GPS data and one with. *)
Definition photo_a : json := no_gps_item "/photos/a.jpg".

Definition photo_b : json := no_gps_item "/photos/b.jpg".

Definition photo_c : json :=
  ok_item "/photos/c.jpg" (JFloat (dms 40 26 46)) (JFloat (- dms 79 58 36))
    (JStr "Pittsburgh, PA").

(** A photograph whose coordinates decode to NaN (its rationals are 0/0),
    as the record of an upload that numbered its two floats from [o] on:
    two uploads of the photograph give two records with the same content
    and NaN of their own. *)
Definition photo_n (o : Z) : json :=
  ok_item "/photos/n.jpg" (JNaN o) (JNaN (o + 1)) (JStr ADDRESS_NOT_FOUND).

(** The character U+D800, a surrogate on its own, and the record of a
    photograph for which the geocoder answered with it (the JSON text
    of the answer spelling it with a [\u] escape). *)
Definition lone_surrogate : string :=
  String (ascii_of_nat 237) (String (ascii_of_nat 160)
    (String (ascii_of_nat 128) EmptyString)).

Definition photo_s : json :=
  ok_item "/photos/s.jpg" (JFloat (dms 40 26 46)) (JFloat (- dms 79 58 36))
    (JStr lone_surrogate).

(** A state whose document is the dump of its history. *)
Definition saved (l : list json) : state text :=
  State (JArr l) (Some (encode (JArr l))) NoLabel 0.

(** ** Metadata reader

    The raw table of an image is keyed by tag numbers; a resolved table is
    keyed by tag names, and by the number itself where the tag has no name.
    A key of either kind: *)

Inductive key : Type :=
| KId (n : Z)
| KName (s : string).

Definition key_eqb (a b : key) : bool :=
  match a, b with
  | KId n, KId m => n =? m
  | KName s, KName t => String.eqb s t
  | _, _ => false
  end.

(** [d[k] = v] on a [dict]: a key that is there keeps its place, a new one
    goes to the end. *)
Fixpoint assign {V : Type} (k : key) (v : V) (d : list (key * V)) : list (key * V) :=
  match d with
  | [] => [(k, v)]
  | (k', v') :: d' =>
      if key_eqb k k' then (k', v) :: d' else (k', v') :: assign k v d'
  end.

Fixpoint lookup {V : Type} (k : key) (d : list (key * V)) : option V :=
  match d with
  | [] => None
  | (k', v) :: d' => if key_eqb k k' then Some v else lookup k d'
  end.

(** What a tag of the raw table holds: any value, or a nested table keyed
    by numbers. *)
Inductive raw_value : Type :=
| RValue (v : value)
| RTable (sub : list (key * value)).

(** [isinstance(v, dict)], with the members of the dictionary. *)
Definition as_table (v : raw_value) : option (list (key * value)) :=
  match v with
  | RTable sub => Some sub
  | RValue (VDict kvs) => Some (map (fun kv => (KName (fst kv), snd kv)) kvs)
  | RValue _ => None
  end.

(** What a tag of the resolved table holds. *)
Inductive tag_value : Type :=
| TValue (v : value)
| TTable (sub : list (key * value)).

Definition pass (v : raw_value) : tag_value :=
  match v with
  | RValue v => TValue v
  | RTable sub => TTable sub
  end.

(** What the imaging library makes of a path: [Image.open] raises, the
    image has no [_getexif], [_getexif()] raises, it returns [None] or
    something that is no [dict], or it returns the raw table. *)
Inductive image : Type :=
| Unreadable
| NoExifSupport
| ExifFails
| NotATable
| RawTable (raw : list (key * raw_value)).

Section Reader.

(** [PIL.ExifTags.TAGS] and [GPSTAGS]: the names of the tag numbers. *)
Variable TAGS : Z -> option string.
Variable GPSTAGS : Z -> option string.

(** [table.get(k, k)] *)
Definition tag_name (table : Z -> option string) (k : key) : key :=
  match k with
  | KId n =>
      match table n with
      | Some s => KName s
      | None => k
      end
  | KName _ => k
  end.

(** The inner loop: [gps[GPSTAGS.get(sub_k, sub_k)] = sub_v]. *)
Definition resolve_gps (sub : list (key * value)) : list (key * value) :=
  fold_left (fun gps kv => assign (tag_name GPSTAGS (fst kv)) (snd kv) gps) sub [].

(** The body of the outer loop. *)
Definition resolve_tag (exif : list (key * tag_value)) (kv : key * raw_value)
  : list (key * tag_value) :=
  let tag := tag_name TAGS (fst kv) in
  if key_eqb tag (KName "GPSInfo")
  then match as_table (snd kv) with
       | Some sub => assign (KName "GPSInfo") (TTable (resolve_gps sub)) exif
       | None => assign tag (pass (snd kv)) exif
       end
  else assign tag (pass (snd kv)) exif.

Definition extract_exif (img : image) : list (key * tag_value) :=
  match img with
  | RawTable raw => fold_left resolve_tag raw []
  | Unreadable | NoExifSupport | ExifFails | NotATable => []
  end.

End Reader.

(** The last entry of a raw table whose key the table of names resolves to
    the tag [t]. *)
Definition last_tagged {V : Type} (table : Z -> option string) (t : key)
    (l : list (key * V)) : option (key * V) :=
  find (fun kv => key_eqb t (tag_name table (fst kv))) (rev l).

(** The resolved table as the decoder is given it: its entries under text
    keys (the only ones the decoder looks up, see [value]). *)
Fixpoint text_entries {V W : Type} (f : V -> W) (d : list (key * V)) : list (string * W) :=
  match d with
  | [] => []
  | (KName s, v) :: d' => (s, f v) :: text_entries f d'
  | (KId _, _) :: d' => text_entries f d'
  end.

Definition as_value (t : tag_value) : value :=
  match t with
  | TValue v => v
  | TTable sub => VDict (text_entries (fun v => v) sub)
  end.

Definition as_dict (exif : list (key * tag_value)) : dict :=
  text_entries as_value exif.

(** ** Presentation layer: the rows of the history *)

(** [bool(x)] *)
Definition json_truthy (j : json) : bool :=
  match j with
  | JNull => false
  | JBool b => b
  | JInt n => negb (n =? 0)
  | JFloat f => negb (PrimFloat.eqb f 0)
  | JNaN _ => true
  | JStr s => negb (String.eqb s "")
  | JArr xs => negb (Nat.eqb (List.length xs) 0)
  | JObj kvs => negb (Nat.eqb (List.length kvs) 0)
  end.

(** [round(f, 6)] on a float: the decimal with six places nearest to [f],
    ties to the even one, and then the float nearest to that decimal; an
    infinity and a NaN as they are. *)
Definition round6_float (f : float) : float :=
  match Prim2SF f with
  | S754_finite s m e =>
      let n :=
        if 0 <=? e then Zpos m * 1000000 * 2 ^ e
        else
          let q := (Zpos m * 1000000) / 2 ^ (- e) in
          let r := (Zpos m * 1000000) mod 2 ^ (- e) in
          match 2 * r ?= 2 ^ (- e) with
          | Lt => q
          | Eq => if Z.even q then q else q + 1
          | Gt => q + 1
          end in
      match n with
      | Zpos p =>
          SF2Prim (SFdiv prec emax (S754_finite s p 0)
                     (S754_finite false 1000000 0))
      | _ => SF2Prim (S754_zero s)
      end
  | _ => f
  end.

(** [round(x, 6)]: an integer for an integer or a truth value, the rounded
    float for a float, [TypeError] for anything else. *)
Definition round6 (x : json) : res (Z + float) :=
  match x with
  | JBool b => Ok (inl (Z.b2z b))
  | JInt n => Ok (inl n)
  | JFloat f => Ok (inr (round6_float f))
  | JNaN _ => Ok (inr nan)
  | _ => Raise TypeError
  end.

(** The text under the name and the path: the address with the two
    coordinates rounded to six decimals, or the reason. *)
Inductive details : Type :=
| Located (address : json) (lat lon : Z + float)
| Unlocated (reason : json).

(** One row, by what its widgets are given: the path the thumbnail is made
    from, the path behind the image button, the two labels, the details,
    the coordinates behind the maps button when there is one, and the item
    behind the delete button. *)
Record row : Type := Row {
  thumbnail : json;
  img_btn : json;
  name_lbl : json;
  path_lbl : json;
  details_lbl : details;
  maps_btn : option (json * json);
  del_btn : json
}.

Definition render_row (item : json) : res row :=
  (thumb <- json_getkey item "path" ;;
   p <- json_getkey item "path" ;;
   name <- json_getkey item "name" ;;
   path <- json_getkey item "path" ;;
   st <- json_get item "status" JNull ;;
   d <- (if py_eq st (JStr "ok")
         then (addr <- json_get item "address" (JStr ADDRESS_NOT_FOUND) ;;
               lat <- json_getkey item "lat" ;;
               lat' <- round6 lat ;;
               lon <- json_getkey item "lon" ;;
               lon' <- round6 lon ;;
               Ok (Located addr lat' lon'))
         else (reason <- json_get item "reason" (JStr NO_GPS_REASON_TEXT) ;;
               Ok (Unlocated reason))) ;;
   st' <- json_get item "status" JNull ;;
   m <- (if py_eq st' (JStr "ok")
         then (lt <- json_getkey item "lat" ;;
               ln <- json_getkey item "lon" ;;
               Ok (Some (lt, ln)))
         else Ok None) ;;
   Ok (Row thumb p name path d m item))%res.

(** The loop over the history: the rows made before an exception stay (the
    frame of the row that failed, with what it got so far, is not counted). *)
Fixpoint render_rows (l : list json) : list row * res unit :=
  match l with
  | [] => ([], Ok tt)
  | item :: l' =>
      match render_row item with
      | Ok r => (r :: fst (render_rows l'), snd (render_rows l'))
      | Raise e => ([], Raise e)
      end
  end.

Inductive screen : Type :=
| Placeholder
| Rows (rs : list row).

(** [refresh_history()] on the history [h]: what the frame shows afterwards
    and how the call ends.  Iterating a number raises, and the items of a
    text or of an object are texts, which have no ["path"]. *)
Definition refresh_history (h : json) : screen * res unit :=
  if json_truthy h
  then match h with
       | JArr l => (Rows (fst (render_rows l)), snd (render_rows l))
       | _ => (Rows [], Raise TypeError)
       end
  else (Placeholder, Ok tt).

(** [item.get("status") == "ok"] *)
Definition status_ok (item : json) : bool :=
  match json_get item "status" JNull with
  | Ok st => py_eq st (JStr "ok")
  | Raise _ => false
  end.

(** An item that a row can show: an object with a text path and a text
    name whose latitude and longitude are numbers when its status is "ok". *)
Definition is_number (j : json) : bool :=
  match j with
  | JBool _ | JInt _ | JFloat _ | JNaN _ => true
  | _ => false
  end.

Definition displayable_item (item : json) : bool :=
  match item with
  | JObj kvs =>
      match dict_lookup "path" kvs, dict_lookup "name" kvs with
      | Some (JStr _), Some (JStr _) =>
          match dict_lookup "status" kvs with
          | Some st =>
              if py_eq st (JStr "ok")
              then match dict_lookup "lat" kvs, dict_lookup "lon" kvs with
                   | Some lat, Some lon => is_number lat && is_number lon
                   | _, _ => false
                   end
              else true
          | None => true
          end
      | _, _ => false
      end
  | _ => false
  end.

(** A history that is a list of such items. *)
Definition displayable (h : json) : bool :=
  match h with
  | JArr l => forallb displayable_item l
  | _ => false
  end.

(** ** The running application *)

Section App.

Variable doc : Type.
Variable json_dump : json -> doc.
Variable json_partial : json -> doc.
Variable json_load : doc -> option json.
Variable float_of_text : string -> option float.
Variable TAGS : Z -> option string.
Variable GPSTAGS : Z -> option string.

(** What the user does: an upload, with the path the dialog returns, what
    the imaging library makes of that path and how the geocoder behaves at
    that moment; or a click on a delete button, with the item behind it and
    the answer to the confirmation. *)
Inductive event : Type :=
| Upload (file_path : string) (img : image)
         (requests_get : float -> float -> http_result)
| Delete (confirm : bool) (item : json).

Definition handle (e : event) (st : state doc) : res unit * state doc :=
  match e with
  | Upload file_path img requests_get =>
      upload_image json_dump json_partial (fun h => snd (refresh_history h))
        float_of_text requests_get file_path
        (as_dict (extract_exif TAGS GPSTAGS img)) st
  | Delete confirm item =>
      delete_entry json_dump json_partial (fun h => snd (refresh_history h))
        confirm item st
  end.

(** The script loads the history and draws it before it enters the main
    loop: an exception there ends the program before any event. *)
Definition launch (f : option doc) : option (state doc) :=
  match snd (refresh_history (history (start json_load f))) with
  | Ok _ => Some (start json_load f)
  | Raise _ => None
  end.

(** The main loop hands the events to their callbacks one after the other;
    an exception in a callback is reported and the loop goes on. *)
Fixpoint run (es : list event) (st : state doc) : state doc :=
  match es with
  | [] => st
  | e :: es' => run es' (snd (handle e st))
  end.

End App.

Arguments launch {doc} json_load f.
Arguments handle {doc} json_dump json_partial float_of_text TAGS GPSTAGS e st.
Arguments run {doc} json_dump json_partial float_of_text TAGS GPSTAGS es st.

(** The entries of the two tables of names that the examples use, under
    their numbers in the EXIF standard. *)
Definition exif_names (n : Z) : option string :=
  if n =? 271 then Some "Make"
  else if n =? 34853 then Some "GPSInfo"
  else None.

Definition gps_names (n : Z) : option string :=
  if n =? 1 then Some "GPSLatitudeRef"
  else if n =? 2 then Some "GPSLatitude"
  else if n =? 3 then Some "GPSLongitudeRef"
  else if n =? 4 then Some "GPSLongitude"
  else None.

(** The raw table of a photograph taken at 40 deg 26' 46'' N,
    79 deg 58' 36'' W, with one tag that has no name. *)
Definition raw_located : list (key * raw_value) :=
  [(KId 271, RValue (VStr "Canon"));
   (KId 59999, RValue (VInt 7));
   (KId 34853,
    RTable [(KId 1, VStr "N"); (KId 2, lat_40_26_46);
            (KId 3, VStr "W"); (KId 4, lon_79_58_36)])].

(** A raw table whose GPS tag is a bare offset. *)
Definition raw_offset : list (key * raw_value) :=
  [(KId 271, RValue (VStr "Canon")); (KId 34853, RValue (VInt 1234))].

(** An endpoint that knows the place. *)
Definition pittsburgh : float -> float -> http_result :=
  answers (JObj [("display_name", JStr "Pittsburgh, PA")]).

(** An endpoint whose answer names the place with a surrogate on its
    own. *)
Definition garbled : float -> float -> http_result :=
  answers (JObj [("display_name", JStr lone_surrogate)]).

(** A session: a photograph with coordinates, one without metadata, a
    cancelled dialog, and the first record deleted again. *)
Definition session : list event :=
  [Upload "/photos/c.jpg" (RawTable raw_located) pittsburgh;
   Upload "/photos/a.jpg" Unreadable offline;
   Upload "" NotATable offline;
   Delete true photo_c].

(** An event the screen can give rise to: a delete button carries an item
    with a name (see [render_row]). *)
Definition from_screen (e : event) : bool :=
  match e with
  | Upload _ _ _ => true
  | Delete _ item =>
      match json_getkey item "name" with
      | Ok _ => true
      | Raise _ => false
      end
  end.

(** * Properties *)

Local Open Scope list_scope.

(** ** The decoder never raises *)

Section DecoderFacts.

Variable float_of_text : string -> option float.

Lemma try_except_ok {A : Type} (c : res A) (a : A) :
  exists r, try_except c (Ok a) = Ok r.
Proof. destruct c; simpl; eauto. Qed.

Lemma _to_float_ok (x : value) : exists r, _to_float float_of_text x = Ok r.
Proof.
  unfold _to_float.
  destruct (bind (py_float float_of_text x) _) eqn:E; simpl; eauto.
  apply try_except_ok.
Qed.

Lemma convert_to_degrees_ok (v : value) :
  exists r, convert_to_degrees float_of_text v = Ok r.
Proof. apply try_except_ok. Qed.

Lemma get_lat_lon_ok (exif : dict) :
  exists r, get_lat_lon float_of_text exif = Ok r.
Proof. apply try_except_ok. Qed.

(** A component without a value makes the whole triple absent. *)
Lemma convert_to_degrees_none (v c : value) (i : nat) :
  (i < 3)%nat ->
  getitem v i = Ok c ->
  _to_float float_of_text c = Ok None ->
  convert_to_degrees float_of_text v = Ok None.
Proof.
  intros Hi Hget Hc. unfold convert_to_degrees.
  destruct (getitem v 0) as [v0|] eqn:E0; simpl; [|reflexivity].
  destruct (_to_float_ok v0) as [r0 H0]. rewrite H0. simpl.
  destruct (getitem v 1) as [v1|] eqn:E1; simpl; [|reflexivity].
  destruct (_to_float_ok v1) as [r1 H1]. rewrite H1. simpl.
  destruct (getitem v 2) as [v2|] eqn:E2; simpl; [|reflexivity].
  destruct (_to_float_ok v2) as [r2 H2]. rewrite H2. simpl.
  destruct i as [|[|[|i]]];
    [rewrite E0 in Hget | rewrite E1 in Hget | rewrite E2 in Hget | lia];
    injection Hget as ->;
    [rewrite Hc in H0; injection H0 as <-
    |rewrite Hc in H1; injection H1 as <-
    |rewrite Hc in H2; injection H2 as <-];
    repeat match goal with r : option float |- _ => destruct r end;
    reflexivity.
Qed.

Lemma gps_table_dict (exif : dict) (gps : dict) :
  dict_lookup "GPSInfo" exif = Some (VDict gps) -> gps_table exif = VDict gps.
Proof.
  intros H. unfold gps_table. rewrite H. destruct gps; reflexivity.
Qed.

(** Unless both triples are there and both decode, the result is absent. *)
Lemma get_lat_lon_absent (exif : dict) :
  (forall vlat vlon lat lon,
      getkey (gps_table exif) "GPSLatitude" = Ok vlat ->
      convert_to_degrees float_of_text vlat = Ok (Some lat) ->
      getkey (gps_table exif) "GPSLongitude" = Ok vlon ->
      convert_to_degrees float_of_text vlon = Ok (Some lon) ->
      False) ->
  get_lat_lon float_of_text exif = Ok None.
Proof.
  intros H. unfold get_lat_lon.
  destruct (getkey (gps_table exif) "GPSLatitude") as [vlat|] eqn:E1;
    simpl; [|reflexivity].
  destruct (convert_to_degrees_ok vlat) as [lat Hlat]. rewrite Hlat. simpl.
  destruct (getkey (gps_table exif) "GPSLongitude") as [vlon|] eqn:E2;
    simpl; [|reflexivity].
  destruct (convert_to_degrees_ok vlon) as [lon Hlon]. rewrite Hlon. simpl.
  destruct lat as [lat|]; [|reflexivity].
  destruct lon as [lon|]; [|reflexivity].
  exfalso. eapply H; eauto.
Qed.

Lemma hemisphere_signed (gps : dict) (ref positive : string) (x : float) :
  hemisphere (VDict gps) ref positive x
  = Ok (signed (dict_lookup ref gps) positive x).
Proof.
  unfold hemisphere, signed. simpl.
  destruct (dict_lookup ref gps) as [r|] eqn:E; simpl; [|reflexivity].
  destruct (truthy r); reflexivity.
Qed.

(** When both triples decode, the result is the two values, each signed by
    its reference tag. *)
Lemma get_lat_lon_signed (exif gps : dict) (vlat vlon : value) (lat lon : float) :
  dict_lookup "GPSInfo" exif = Some (VDict gps) ->
  dict_lookup "GPSLatitude" gps = Some vlat ->
  dict_lookup "GPSLongitude" gps = Some vlon ->
  convert_to_degrees float_of_text vlat = Ok (Some lat) ->
  convert_to_degrees float_of_text vlon = Ok (Some lon) ->
  get_lat_lon float_of_text exif
  = Ok (Some (signed (dict_lookup "GPSLatitudeRef" gps) "N" lat,
              signed (dict_lookup "GPSLongitudeRef" gps) "E" lon)).
Proof.
  intros Hgps Hvlat Hvlon Hlat Hlon. unfold get_lat_lon.
  rewrite (gps_table_dict _ _ Hgps). simpl.
  rewrite Hvlat. simpl. rewrite Hlat. simpl.
  rewrite Hvlon. simpl. rewrite Hlon. simpl.
  rewrite !hemisphere_signed. reflexivity.
Qed.

(** The code's conversion of a component agrees with the specification's. *)
Lemma number_py_float (v : value) (f : float) :
  number v = Some f -> py_float float_of_text v = Ok f.
Proof.
  destruct v; simpl; try discriminate.
  - intros ->. reflexivity.
  - intros [= ->]. reflexivity.
Qed.

Lemma _to_float_component (v : value) (f : float) :
  component_value v = Some f -> _to_float float_of_text v = Ok (Some f).
Proof.
  intros H. unfold _to_float.
  destruct v as [| | n | g | | | xs | |]; try discriminate;
    try (change (number (VInt n) = Some f) in H);
    try (change (number (VFloat g) = Some f) in H);
    try (rewrite (number_py_float _ _ H); reflexivity).
  simpl in H.
  destruct xs as [|a [|b [|c xs]]]; try discriminate.
  destruct (number a) as [fa|] eqn:Ea; [|discriminate].
  destruct (number b) as [fb|] eqn:Eb; [|discriminate].
  destruct (PrimFloat.eqb fb 0) eqn:Ez; [discriminate|].
  injection H as <-. simpl.
  rewrite (number_py_float _ _ Ea), (number_py_float _ _ Eb). simpl.
  unfold float_div. rewrite Ez. reflexivity.
Qed.

Lemma convert_to_degrees_triple (d m s : value) (fd fm fs : float) :
  component_value d = Some fd ->
  component_value m = Some fm ->
  component_value s = Some fs ->
  convert_to_degrees float_of_text (VTuple [d; m; s]) = Ok (Some (dms fd fm fs)).
Proof.
  intros Hd Hm Hs. unfold convert_to_degrees. simpl.
  rewrite (_to_float_component _ _ Hd). simpl.
  rewrite (_to_float_component _ _ Hm). simpl.
  rewrite (_to_float_component _ _ Hs). reflexivity.
Qed.

(** The components without a value are those that [float] rejects and
    whose first two parts give no quotient. *)
Lemma _to_float_no_value (c : value) :
  _to_float float_of_text c = Ok None <-> no_value float_of_text c = true.
Proof.
  unfold no_value, accepted, has_quotient, _to_float.
  destruct (py_float float_of_text c); simpl; [split; discriminate|].
  destruct (getitem c 0) as [a|]; simpl; [|split; reflexivity].
  destruct (getitem c 1) as [b|]; simpl;
    [|destruct (py_float float_of_text a); split; reflexivity].
  destruct (py_float float_of_text a); simpl; [|split; reflexivity].
  destruct (py_float float_of_text b) as [fb|]; simpl; [|split; reflexivity].
  unfold float_div. destruct (PrimFloat.eqb fb 0); simpl;
    split; try reflexivity; discriminate.
Qed.

(** A pair whose denominator converts to zero has no value. *)
Lemma _to_float_zero_denominator (n d : value) (fd : float) :
  py_float float_of_text d = Ok fd ->
  PrimFloat.eqb fd 0 = true ->
  _to_float float_of_text (VTuple [n; d]) = Ok None.
Proof.
  intros Hd Hz. unfold _to_float. simpl.
  destruct (py_float float_of_text n); simpl; [|reflexivity].
  rewrite Hd. simpl. unfold float_div. rewrite Hz. reflexivity.
Qed.

(** A triple with a component that has no value, under either key, makes
    the decoder answer absent. *)
Lemma get_lat_lon_component_none (exif gps : dict) (v c : value) (i : nat) :
  dict_lookup "GPSInfo" exif = Some (VDict gps) ->
  dict_lookup "GPSLatitude" gps = Some v \/ dict_lookup "GPSLongitude" gps = Some v ->
  (i < 3)%nat ->
  getitem v i = Ok c ->
  _to_float float_of_text c = Ok None ->
  get_lat_lon float_of_text exif = Ok None.
Proof.
  intros Hgps Hv Hi Hc Hnone. apply get_lat_lon_absent.
  rewrite (gps_table_dict _ _ Hgps). simpl.
  intros vlat vlon lat lon H1 H2 H3 H4.
  pose proof (convert_to_degrees_none v c i Hi Hc Hnone) as Hconv.
  destruct Hv as [Hv|Hv]; rewrite Hv in *.
  - injection H1 as <-. congruence.
  - injection H3 as <-. congruence.
Qed.

(** C1.  A GPS table whose latitude and longitude are triples of plain
    numbers or (numerator, denominator) pairs decodes to
    [d + m/60 + s/3600] for each, as it is under the references "N" and "E"
    and negated under "S" and "W". *)
Theorem decode_degrees_minutes_seconds
    (exif gps : dict) (d m s d' m' s' : value) (fd fm fs fd' fm' fs' : float) :
  dict_lookup "GPSInfo" exif = Some (VDict gps) ->
  dict_lookup "GPSLatitude" gps = Some (VTuple [d; m; s]) ->
  dict_lookup "GPSLongitude" gps = Some (VTuple [d'; m'; s']) ->
  component_value d = Some fd ->
  component_value m = Some fm ->
  component_value s = Some fs ->
  component_value d' = Some fd' ->
  component_value m' = Some fm' ->
  component_value s' = Some fs' ->
  (dict_lookup "GPSLatitudeRef" gps = Some (VStr "N") ->
   dict_lookup "GPSLongitudeRef" gps = Some (VStr "E") ->
   get_lat_lon float_of_text exif
   = Ok (Some (dms fd fm fs, dms fd' fm' fs')))
  /\ (dict_lookup "GPSLatitudeRef" gps = Some (VStr "S") ->
      dict_lookup "GPSLongitudeRef" gps = Some (VStr "W") ->
      get_lat_lon float_of_text exif
      = Ok (Some ((- dms fd fm fs)%float, (- dms fd' fm' fs')%float))).
Proof.
  intros Hgps Hlat Hlon Hd Hm Hs Hd' Hm' Hs'.
  pose proof (get_lat_lon_signed exif gps _ _ _ _ Hgps Hlat Hlon
                (convert_to_degrees_triple _ _ _ _ _ _ Hd Hm Hs)
                (convert_to_degrees_triple _ _ _ _ _ _ Hd' Hm' Hs')) as H.
  split; intros Hr Hr'; rewrite H, Hr, Hr'; reflexivity.
Qed.

(** C3 (amended).  With both triples decodable, the latitude is negated
    exactly when [GPSLatitudeRef] is present, non-empty and not "N", and the
    longitude exactly when [GPSLongitudeRef] is present, non-empty and not
    "E"; an absent or empty reference leaves the sign as it is. *)
Theorem hemisphere_sign_rule
    (exif gps : dict) (vlat vlon : value) (lat lon : float) :
  dict_lookup "GPSInfo" exif = Some (VDict gps) ->
  dict_lookup "GPSLatitude" gps = Some vlat ->
  dict_lookup "GPSLongitude" gps = Some vlon ->
  convert_to_degrees float_of_text vlat = Ok (Some lat) ->
  convert_to_degrees float_of_text vlon = Ok (Some lon) ->
  exists lat' lon',
    get_lat_lon float_of_text exif = Ok (Some (lat', lon'))
    /\ lat' = match dict_lookup "GPSLatitudeRef" gps with
              | Some r => if truthy r && ne_str r "N" then (- lat)%float else lat
              | None => lat
              end
    /\ lon' = match dict_lookup "GPSLongitudeRef" gps with
              | Some r => if truthy r && ne_str r "E" then (- lon)%float else lon
              | None => lon
              end.
Proof.
  intros Hgps Hvlat Hvlon Hlat Hlon.
  eexists _, _. split; [|split; reflexivity].
  apply (get_lat_lon_signed exif gps vlat vlon lat lon); assumption.
Qed.

(** C4 (amended).  The components the decoder makes no value of are those
    that [float] rejects and whose first two parts give no quotient; when
    the latitude or the longitude triple is missing, or one of its three
    components is such a component, the decoder returns absent, and it
    returns: no exception comes out of it. *)
Theorem decode_absent_when_missing_or_without_value :
  (forall c : value,
      _to_float float_of_text c = Ok None <-> no_value float_of_text c = true)
  /\ (forall exif gps : dict,
        dict_lookup "GPSInfo" exif = Some (VDict gps) ->
        dict_lookup "GPSLatitude" gps = None
        \/ dict_lookup "GPSLongitude" gps = None
        \/ (exists v,
              (dict_lookup "GPSLatitude" gps = Some v
               \/ dict_lookup "GPSLongitude" gps = Some v)
              /\ has_component_without_value float_of_text v) ->
        get_lat_lon float_of_text exif = Ok None).
Proof.
  split; [exact _to_float_no_value|].
  intros exif gps Hgps [Hlat | [Hlon | (v & Hv & i & c & Hi & Hc & Hbad)]].
  - apply get_lat_lon_absent. rewrite (gps_table_dict _ _ Hgps). simpl.
    rewrite Hlat. discriminate.
  - apply get_lat_lon_absent. rewrite (gps_table_dict _ _ Hgps). simpl.
    rewrite Hlon. discriminate.
  - apply _to_float_no_value in Hbad.
    eapply get_lat_lon_component_none; eauto.
Qed.

(** C10.  A (numerator, denominator) pair whose denominator is zero
    converts to no value instead of raising a division error, and a triple
    holding such a component, under either key, decodes to absent. *)
Theorem zero_denominator_gives_absent (n d : value) (fd : float) :
  py_float float_of_text d = Ok fd ->
  PrimFloat.eqb fd 0 = true ->
  _to_float float_of_text (VTuple [n; d]) = Ok None
  /\ forall (exif gps : dict) (v : value) (i : nat),
      dict_lookup "GPSInfo" exif = Some (VDict gps) ->
      dict_lookup "GPSLatitude" gps = Some v
      \/ dict_lookup "GPSLongitude" gps = Some v ->
      (i < 3)%nat ->
      getitem v i = Ok (VTuple [n; d]) ->
      get_lat_lon float_of_text exif = Ok None.
Proof.
  intros Hd Hz.
  pose proof (_to_float_zero_denominator n d fd Hd Hz) as Hnone.
  split; [assumption|].
  intros exif gps v i Hgps Hv Hi Hc.
  eapply get_lat_lon_component_none; eauto.
Qed.

(** X2.  On every tag table the decoder returns, absent or a pair of
    floats: no exception comes out of it. *)
Theorem get_lat_lon_never_raises (exif : dict) :
  get_lat_lon float_of_text exif = Ok None
  \/ exists lat lon, get_lat_lon float_of_text exif = Ok (Some (lat, lon)).
Proof.
  destruct (get_lat_lon_ok exif) as [[[lat lon]|] H]; rewrite H; eauto.
Qed.

End DecoderFacts.

(** ** The decoder on the example tables *)

Lemma decode_degrees_minutes_seconds_witness :
  get_lat_lon no_text (exif_of (gps_refs "N" "E"))
  = Ok (Some (dms 40 26 46, dms 79 58 36))
  /\ get_lat_lon no_text (exif_of (gps_refs "S" "W"))
     = Ok (Some ((- dms 40 26 46)%float, (- dms 79 58 36)%float)).
Proof.
  split.
  - apply (proj1 (decode_degrees_minutes_seconds no_text
             (exif_of (gps_refs "N" "E")) (gps_refs "N" "E")
             (VInt 40) (VInt 26) (VInt 46)
             (VTuple [VInt 79; VInt 1]) (VTuple [VInt 58; VInt 1])
             (VTuple [VInt 36; VInt 1])
             40 26 46 79 58 36
             eq_refl eq_refl eq_refl eq_refl eq_refl eq_refl
             eq_refl eq_refl eq_refl)); reflexivity.
  - apply (proj2 (decode_degrees_minutes_seconds no_text
             (exif_of (gps_refs "S" "W")) (gps_refs "S" "W")
             (VInt 40) (VInt 26) (VInt 46)
             (VTuple [VInt 79; VInt 1]) (VTuple [VInt 58; VInt 1])
             (VTuple [VInt 36; VInt 1])
             40 26 46 79 58 36
             eq_refl eq_refl eq_refl eq_refl eq_refl eq_refl
             eq_refl eq_refl eq_refl)); reflexivity.
Defined.

(** An empty [GPSLatitudeRef] is present and is not "N", and the latitude
    comes out as decoded, not negated. *)
Lemma empty_reference_keeps_sign :
  dict_lookup "GPSLatitudeRef" (gps_refs "" "E") = Some (VStr "")
  /\ ne_str (VStr "") "N" = true
  /\ convert_to_degrees no_text lat_40_26_46 = Ok (Some (dms 40 26 46))
  /\ get_lat_lon no_text (exif_of (gps_refs "" "E"))
     = Ok (Some (dms 40 26 46, dms 79 58 36))
  /\ PrimFloat.eqb (dms 40 26 46) (- dms 40 26 46) = false.
Proof. repeat split; vm_compute; reflexivity. Qed.

Lemma hemisphere_sign_rule_witness :
  (exists lat' lon',
     get_lat_lon no_text (exif_of (gps_refs "S" "")) = Ok (Some (lat', lon'))
     /\ lat' = (- dms 40 26 46)%float
     /\ lon' = dms 79 58 36)
  /\ (exists lat' lon',
        get_lat_lon no_text (exif_of gps_no_refs) = Ok (Some (lat', lon'))
        /\ lat' = dms 40 26 46
        /\ lon' = dms 79 58 36).
Proof.
  split.
  - exact (hemisphere_sign_rule no_text
             (exif_of (gps_refs "S" "")) (gps_refs "S" "")
             lat_40_26_46 lon_79_58_36 (dms 40 26 46) (dms 79 58 36)
             eq_refl eq_refl eq_refl eq_refl eq_refl).
  - exact (hemisphere_sign_rule no_text
             (exif_of gps_no_refs) gps_no_refs
             lat_40_26_46 lon_79_58_36 (dms 40 26 46) (dms 79 58 36)
             eq_refl eq_refl eq_refl eq_refl eq_refl).
Defined.

(** A component in three parts is neither numeric nor a pair, and the
    triple decodes all the same: 81/2 degrees. *)
Lemma malformed_component_decodes :
  malformed (VTuple [VInt 81; VInt 2; VInt 3]) = true
  /\ dict_lookup "GPSLatitude" gps_three_parts
     = Some (VTuple [VTuple [VInt 81; VInt 2; VInt 3]; VInt 26; VInt 46])
  /\ get_lat_lon no_text (exif_of gps_three_parts)
     = Ok (Some (dms (81 / 2) 26 46, dms 79 58 36)).
Proof. repeat split; vm_compute; reflexivity. Qed.

Lemma decode_absent_when_missing_or_without_value_witness :
  get_lat_lon no_text (exif_of gps_no_longitude) = Ok None
  /\ get_lat_lon no_text (exif_of gps_bad_seconds) = Ok None.
Proof.
  destruct (decode_absent_when_missing_or_without_value no_text) as [_ H].
  split.
  - apply (H (exif_of gps_no_longitude) gps_no_longitude eq_refl).
    right. left. reflexivity.
  - apply (H (exif_of gps_bad_seconds) gps_bad_seconds eq_refl).
    right. right. exists (VTuple [VInt 40; VInt 26; VNone]).
    split; [left; reflexivity|].
    exists 2%nat, VNone. split; [lia | split; reflexivity].
Defined.

Lemma zero_denominator_gives_absent_witness :
  _to_float no_text (VTuple [VInt 58; VInt 0]) = Ok None
  /\ get_lat_lon no_text (exif_of gps_zero_denominator) = Ok None.
Proof.
  destruct (zero_denominator_gives_absent no_text (VInt 58) (VInt 0) 0
              eq_refl eq_refl) as [H1 H2].
  split; [exact H1|].
  apply (H2 (exif_of gps_zero_denominator) gps_zero_denominator
            (VTuple [VInt 79; VTuple [VInt 58; VInt 0]; VInt 36]) 1%nat eq_refl).
  - right. reflexivity.
  - lia.
  - reflexivity.
Defined.

(** ** Equality of JSON values *)

Lemma json_induction (P : json -> Prop) :
  P JNull ->
  (forall b, P (JBool b)) ->
  (forall n, P (JInt n)) ->
  (forall f, P (JFloat f)) ->
  (forall o, P (JNaN o)) ->
  (forall s, P (JStr s)) ->
  (forall xs, Forall P xs -> P (JArr xs)) ->
  (forall kvs, Forall (fun kv => P (snd kv)) kvs -> P (JObj kvs)) ->
  forall j, P j.
Proof.
  intros HN HB HI HF HQ HS HA HO.
  fix IH 1. intros [| b | n | f | o | s | xs | kvs].
  - exact HN.
  - apply HB.
  - apply HI.
  - apply HF.
  - apply HQ.
  - apply HS.
  - apply HA. induction xs as [|x xs IHxs]; constructor.
    + apply IH.
    + exact IHxs.
  - apply HO. induction kvs as [|[k v] kvs IHk]; constructor.
    + apply IH.
    + exact IHk.
Qed.

Lemma dict_lookup_distinct {A : Type} (kvs : list (string * A)) (k : string) (v : A) :
  keys_distinct (map fst kvs) = true ->
  In (k, v) kvs ->
  dict_lookup k kvs = Some v.
Proof.
  induction kvs as [|[k' v'] kvs IH]; simpl; intros Hd Hin; [easy|].
  apply andb_prop in Hd as [Hk Hd].
  destruct Hin as [[= -> ->] | Hin].
  - rewrite String.eqb_refl. reflexivity.
  - destruct (String.eqb k k') eqn:E.
    + apply String.eqb_eq in E. subst k'.
      apply negb_true_iff in Hk.
      assert (existsb (String.eqb k) (map fst kvs) = true); [|congruence].
      apply existsb_exists. exists k. split; [|apply String.eqb_refl].
      apply (in_map fst) in Hin. exact Hin.
    + apply IH; assumption.
Qed.

(** A value is equal to itself, being the same object. *)
Lemma py_eq_refl (j : json) : well_formed j = true -> py_eq j j = true.
Proof.
  induction j as [| b | n | f | o | s | xs IH | kvs IH] using json_induction;
    simpl; intros Hr.
  - reflexivity.
  - destruct b; reflexivity.
  - apply Z.eqb_refl.
  - unfold is_nan. destruct (PrimFloat.eqb f f); reflexivity.
  - apply Z.eqb_refl.
  - apply String.eqb_refl.
  - induction IH as [|x xs Hx _ IHxs]; [reflexivity|].
    simpl in Hr. apply andb_prop in Hr as [Hr1 Hr2].
    rewrite (Hx Hr1). simpl. apply IHxs. exact Hr2.
  - rewrite Nat.eqb_refl. simpl.
    apply andb_prop in Hr as [Hd Hr].
    assert (Hsub : forall kv, In kv kvs -> In kv kvs) by auto.
    revert Hsub. generalize kvs at 1 4 as l.
    induction l as [|[k v] l IHl]; intros Hsub; [reflexivity|].
    rewrite (dict_lookup_distinct kvs k v Hd (Hsub _ (or_introl eq_refl))).
    rewrite Forall_forall in IH. rewrite forallb_forall in Hr.
    pose proof (IH (k, v) (Hsub _ (or_introl eq_refl))
                  (Hr _ (Hsub _ (or_introl eq_refl)))) as Hv.
    simpl in Hv. rewrite Hv. simpl.
    apply IHl. intros kv Hkv. apply Hsub. right. exact Hkv.
Qed.

(** ** Removing from a list *)

Lemma list_remove_first_match (x : json) (l1 l2 : list json) (y : json) :
  (forall z, In z l1 -> py_eq z x = false) ->
  py_eq y x = true ->
  list_remove x (l1 ++ y :: l2) = Some (l1 ++ l2).
Proof.
  intros Hl1 Hy. induction l1 as [|z l1 IH]; simpl.
  - rewrite Hy. reflexivity.
  - rewrite (Hl1 z (or_introl eq_refl)).
    rewrite IH; [reflexivity|]. intros w Hw. apply Hl1. right. exact Hw.
Qed.

Lemma list_remove_no_match (x : json) (l : list json) :
  (forall z, In z l -> py_eq z x = false) -> list_remove x l = None.
Proof.
  induction l as [|z l IH]; simpl; intros H; [reflexivity|].
  rewrite (H z (or_introl eq_refl)).
  rewrite IH; [reflexivity|]. intros w Hw. apply H. right. exact Hw.
Qed.

Lemma list_remove_some (x : json) (l l' : list json) :
  list_remove x l = Some l' ->
  exists l1 y l2,
    l = l1 ++ y :: l2 /\ l' = l1 ++ l2 /\ py_eq y x = true
    /\ forall z, In z l1 -> py_eq z x = false.
Proof.
  revert l'. induction l as [|z l IH]; simpl; intros l' H; [discriminate|].
  destruct (py_eq z x) eqn:E.
  - injection H as <-. exists [], z, l. repeat split; auto.
    intros w [].
  - destruct (list_remove x l) as [l0|]; [|discriminate].
    injection H as <-.
    destruct (IH l0 eq_refl) as (l1 & y & l2 & -> & -> & Hy & Hl1).
    exists (z :: l1), y, l2. repeat split; auto.
    intros w [<- | Hw]; auto.
Qed.

Lemma list_remove_count (x : json) (l l' : list json) :
  list_remove x l = Some l' -> count_eq x l = S (count_eq x l').
Proof.
  unfold count_eq. revert l'.
  induction l as [|z l IH]; simpl; intros l' H; [discriminate|].
  destruct (py_eq z x) eqn:E.
  - injection H as <-. reflexivity.
  - destruct (list_remove x l) as [l0|]; [|discriminate].
    injection H as <-. simpl. rewrite E. apply IH. reflexivity.
Qed.

Lemma count_eq_zero (x : json) (l : list json) :
  count_eq x l = 0%nat -> forall y, In y l -> py_eq y x = false.
Proof.
  unfold count_eq. induction l as [|z l IH]; simpl; intros H y Hy; [easy|].
  destruct (py_eq z x) eqn:E; [discriminate|].
  destruct Hy as [<- | Hy]; auto.
Qed.

(** An item that is in the list and equals itself is found. *)
Lemma list_remove_in (x : json) (l : list json) :
  py_eq x x = true -> In x l -> exists l', list_remove x l = Some l'.
Proof.
  intros Hx. induction l as [|y l IH]; simpl; intros Hin; [easy|].
  destruct (py_eq y x) eqn:E; [eauto|].
  destruct Hin as [-> | Hin]; [congruence|].
  destruct (IH Hin) as [l' ->]. simpl. eauto.
Qed.

(** ** The geocode client never raises *)

Lemma get_address_ok (requests_get : float -> float -> http_result)
    (lat lon : float) :
  exists a, get_address requests_get lat lon = Ok a.
Proof. apply try_except_ok. Qed.

(** ** Names of files *)

Lemma basename_nonempty (p : string) :
  p <> "" -> ends_with_slash p = false -> basename p <> "".
Proof.
  induction p as [|c p IH]; [congruence|]. intros _ H. simpl.
  destruct p as [|c' p'].
  - simpl in *. rewrite H. discriminate.
  - change (ends_with_slash (String c' p') = false) in H.
    destruct (existsb _ _).
    + apply IH; [discriminate|assumption].
    + destruct (Ascii.eqb c "/"); discriminate.
Qed.

(** ** What can be written *)

Lemma writable_app (l1 l2 : list json) :
  writable (JArr (l1 ++ l2)) = writable (JArr l1) && writable (JArr l2).
Proof. simpl. apply forallb_app. Qed.

Lemma well_formed_app (l1 l2 : list json) :
  well_formed (JArr (l1 ++ l2)) = well_formed (JArr l1) && well_formed (JArr l2).
Proof. simpl. apply forallb_app. Qed.

Lemma list_remove_forallb (p : json -> bool) (x : json) (l l' : list json) :
  list_remove x l = Some l' -> forallb p l = true -> forallb p l' = true.
Proof.
  intros Hr Hl.
  destruct (list_remove_some x l l' Hr) as (l1 & y & l2 & -> & -> & _).
  rewrite forallb_app in *. apply andb_prop in Hl as [H1 H2].
  simpl in H2. apply andb_prop in H2 as [_ H2]. rewrite H1, H2. reflexivity.
Qed.

(** The decoder's rendering of a value keeps what can be written and what
    is well formed, and holds no NaN but the decoder's. *)
Lemma reloaded_idem (j : json) : reloaded (reloaded j) = reloaded j.
Proof.
  induction j as [| b | n | f | o | s | xs IH | kvs IH] using json_induction;
    simpl; try reflexivity.
  - f_equal. rewrite map_map. apply map_ext_in. intros x Hx.
    rewrite Forall_forall in IH. apply IH. exact Hx.
  - f_equal. rewrite map_map. apply map_ext_in. intros [k v] Hkv. simpl.
    rewrite Forall_forall in IH. f_equal. apply (IH (k, v)). exact Hkv.
Qed.

(** ** Float objects *)

Lemma is_nan_eq (f : float) : is_nan f = true -> f = nan.
Proof.
  unfold is_nan. rewrite eqb_spec. intros H.
  rewrite <- (SF2Prim_Prim2SF f).
  destruct (Prim2SF f) as [s|s| |s m e]; try reflexivity; exfalso.
  - destruct s; discriminate.
  - destruct s; discriminate.
  - unfold SFeqb, SFcompare in H.
    rewrite Z.compare_refl, Pos.compare_cont_refl in H.
    destruct s; discriminate.
Qed.

(** The object holds the float it was made for. *)
Lemma float_value_float_object (o : Z) (f : float) :
  float_value (float_object o f) = Some f.
Proof.
  unfold float_object. destruct (is_nan f) eqn:E; [|reflexivity].
  simpl. rewrite (is_nan_eq f E). reflexivity.
Qed.

(** ** The history store *)

Section StoreFacts.

Variable doc : Type.
Variable json_dump : json -> doc.
Variable json_partial : json -> doc.
Variable json_load : doc -> option json.
Variable refresh_history : json -> res unit.
Variable float_of_text : string -> option float.
Variable requests_get : float -> float -> http_result.

(** What the [json] module promises: loading the text of a value gives
    the value back (numbers keep their type, a float its exact value, an
    object the order of its members), with the decoder's NaN for every
    NaN.  The promise is about Python values, in which no dictionary has a
    key twice, and about texts that reached the file in full. *)
Hypothesis json_load_dump :
  forall j : json,
    well_formed j = true -> writable j = true ->
    json_load (json_dump j) = Some (reloaded j).

(** A text that stops short of its end does not parse. *)
Hypothesis json_load_partial :
  forall j : json, writable j = false -> json_load (json_partial j) = None.

Lemma save_history_written (st : state doc) :
  writable (history st) = true ->
  save_history json_dump json_partial st
  = (Ok tt,
     State (history st) (Some (json_dump (history st))) (status st) (next_id st)).
Proof. intros H. unfold save_history. rewrite H. reflexivity. Qed.

Lemma save_history_refused (st : state doc) :
  writable (history st) = false ->
  save_history json_dump json_partial st
  = (Raise UnicodeEncodeError,
     State (history st) (Some (json_partial (history st))) (status st)
       (next_id st)).
Proof. intros H. unfold save_history. rewrite H. reflexivity. Qed.

Lemma load_after_save (st : state doc) :
  well_formed (history st) = true ->
  writable (history st) = true ->
  load_history json_load (file (snd (save_history json_dump json_partial st)))
  = reloaded (history st).
Proof.
  intros Hwf Hw. rewrite (save_history_written st Hw). simpl.
  rewrite (json_load_dump _ Hwf Hw). reflexivity.
Qed.

(** What a confirmed [delete_entry] leaves behind when the item is found:
    the shortened sequence in memory, and in the file its text, or the
    beginning of its text when it cannot be written, in which case the
    [UnicodeEncodeError] is caught with the [ValueError] it derives
    from. *)
Lemma delete_entry_found (st : state doc) (l l' : list json) (r name : json) :
  history st = JArr l ->
  json_getkey r "name" = Ok name ->
  list_remove r l = Some l' ->
  history (snd (delete_entry json_dump json_partial refresh_history true r st))
  = JArr l'
  /\ (writable (JArr l') = true ->
      file (snd (delete_entry json_dump json_partial refresh_history true r st))
      = Some (json_dump (JArr l'))
      /\ (refresh_history (JArr l') = Ok tt ->
          delete_entry json_dump json_partial refresh_history true r st
          = (Ok tt,
             State (JArr l') (Some (json_dump (JArr l'))) (Deleted name)
               (next_id st))))
  /\ (writable (JArr l') = false ->
      delete_entry json_dump json_partial refresh_history true r st
      = (Ok tt,
         State (JArr l') (Some (json_partial (JArr l'))) (status st)
           (next_id st))).
Proof.
  intros Hh Hname Hrem.
  unfold delete_entry, act_bind, lift, except_ValueError_pass, history_remove,
    save_history, redraw, set_status.
  rewrite Hname, Hh, Hrem. cbn [history file status next_id].
  destruct (writable (JArr l')) eqn:Hw; cbn [history file status next_id].
  - destruct (refresh_history (JArr l')) as [[]|e]; [|destruct e];
      cbn; repeat split; try discriminate; reflexivity.
  - cbn. repeat split; try discriminate; reflexivity.
Qed.

Lemma delete_entry_not_found (st : state doc) (l : list json) (r name : json) :
  history st = JArr l ->
  json_getkey r "name" = Ok name ->
  list_remove r l = None ->
  history_remove r st = (Raise ValueError, st)
  /\ delete_entry json_dump json_partial refresh_history true r st = (Ok tt, st).
Proof.
  intros Hh Hname Hrem.
  unfold delete_entry, act_bind, lift, except_ValueError_pass, history_remove.
  rewrite Hname, Hh, Hrem. split; reflexivity.
Qed.

(** What an upload with a chosen file does to a history that is a list:
    the record is appended, then written, and only then is the status set
    and the screen redrawn. *)
Lemma upload_image_located (st : state doc) (l : list json)
    (file_path : string) (exif : dict) (lat lon : float) (a : json) :
  history st = JArr l ->
  file_path <> "" ->
  get_lat_lon float_of_text exif = Ok (Some (lat, lon)) ->
  get_address requests_get lat lon = Ok a ->
  upload_image json_dump json_partial refresh_history float_of_text
    requests_get file_path exif st
  = let item := ok_item file_path (float_object (next_id st) lat)
                  (float_object (next_id st + 1) lon) a in
    if writable (JArr (l ++ [item]))
    then (refresh_history (JArr (l ++ [item])),
          State (JArr (l ++ [item])) (Some (json_dump (JArr (l ++ [item]))))
            (Saved (basename file_path)) (next_id st + 1 + 1))
    else (Raise UnicodeEncodeError,
          State (JArr (l ++ [item])) (Some (json_partial (JArr (l ++ [item]))))
            (status st) (next_id st + 1 + 1)).
Proof.
  intros Hh Hp Hc Ha.
  assert (Hne : String.eqb file_path "" = false)
    by (apply String.eqb_neq; exact Hp).
  unfold upload_image. rewrite Hne.
  unfold act_bind, lift, new_float. rewrite Hc.
  cbn [history file status next_id]. rewrite Ha.
  unfold history_append. cbn [history file status next_id]. rewrite Hh.
  unfold save_history. cbn [history file status next_id].
  destruct (writable _); reflexivity.
Qed.

Lemma upload_image_unlocated (st : state doc) (l : list json)
    (file_path : string) (exif : dict) :
  history st = JArr l ->
  file_path <> "" ->
  get_lat_lon float_of_text exif = Ok None ->
  upload_image json_dump json_partial refresh_history float_of_text
    requests_get file_path exif st
  = let item := no_gps_item file_path in
    if writable (JArr (l ++ [item]))
    then (refresh_history (JArr (l ++ [item])),
          State (JArr (l ++ [item])) (Some (json_dump (JArr (l ++ [item]))))
            (SavedNoGps (basename file_path)) (next_id st))
    else (Raise UnicodeEncodeError,
          State (JArr (l ++ [item])) (Some (json_partial (JArr (l ++ [item]))))
            (status st) (next_id st)).
Proof.
  intros Hh Hp Hc.
  assert (Hne : String.eqb file_path "" = false)
    by (apply String.eqb_neq; exact Hp).
  unfold upload_image. rewrite Hne.
  unfold act_bind, lift. rewrite Hc.
  unfold history_append. rewrite Hh.
  unfold save_history. cbn [history file status next_id].
  destruct (writable _); reflexivity.
Qed.

(** C8 (amended).  A confirmed [delete_entry] of a record [r] (an item
    with a name) removes from the sequence the first item that is [r]
    itself or equals it, and writes the shortened sequence to the document
    when all its texts can be encoded; on a history that holds no such
    item, the [ValueError] of the list is caught on the spot and the
    sequence, the document and the status line stay as they were.  A
    record that is in the history is itself a match. *)
Theorem delete_entry_first_match (st : state doc) (l : list json) (r name : json) :
  history st = JArr l ->
  json_getkey r "name" = Ok name ->
  (forall l1 x l2,
      l = l1 ++ x :: l2 ->
      py_eq x r = true ->
      (forall y, In y l1 -> py_eq y r = false) ->
      writable (JArr (l1 ++ l2)) = true ->
      history (snd (delete_entry json_dump json_partial refresh_history true r st))
      = JArr (l1 ++ l2)
      /\ file (snd (delete_entry json_dump json_partial refresh_history true r st))
         = Some (json_dump (JArr (l1 ++ l2))))
  /\ ((forall y, In y l -> py_eq y r = false) ->
      history_remove r st = (Raise ValueError, st)
      /\ delete_entry json_dump json_partial refresh_history true r st
         = (Ok tt, st))
  /\ (In r l -> well_formed r = true -> exists x, In x l /\ py_eq x r = true).
Proof.
  intros Hh Hname. split; [|split].
  - intros l1 x l2 -> Hx Hl1 Hw.
    destruct (delete_entry_found st _ (l1 ++ l2) r name Hh Hname) as (H1 & H2 & _).
    + apply list_remove_first_match; assumption.
    + split; [exact H1 | apply H2; exact Hw].
  - intros Hnone. apply list_remove_no_match in Hnone.
    apply (delete_entry_not_found st l r name); assumption.
  - intros Hin Hr. exists r. split; [exact Hin|]. apply py_eq_refl. exact Hr.
Qed.

(** C6 (amended).  For Python values (no dictionary with a key twice):
    appending [r] and saving, when every text of the lengthened sequence
    can be encoded, then loading afresh, gives the sequence with [r] as its
    last item, every NaN read back as the decoder's.  A confirmed
    [delete_entry] of a record [r] that is in a history whose texts can be
    encoded, then loading afresh, gives the sequence without its first item
    equal to [r]: one such item fewer, so none is left only when there
    was exactly one. *)
Theorem history_round_trip (st : state doc) (l : list json) (r : json) :
  history st = JArr l ->
  well_formed (JArr l) = true ->
  well_formed r = true ->
  (writable (JArr (l ++ [r])) = true ->
   load_history json_load
     (file (snd (act_bind (history_append r)
                          (fun _ => save_history json_dump json_partial) st)))
   = JArr (map reloaded l ++ [reloaded r])
   /\ last (map reloaded l ++ [reloaded r]) JNull = reloaded r)
  /\ (forall name,
        writable (JArr l) = true ->
        json_getkey r "name" = Ok name ->
        In r l ->
        exists l',
          list_remove r l = Some l'
          /\ load_history json_load
               (file (snd (delete_entry json_dump json_partial refresh_history
                             true r st)))
             = JArr (map reloaded l')
          /\ count_eq r l = S (count_eq r l')
          /\ (count_eq r l = 1%nat -> forall y, In y l' -> py_eq y r = false)).
Proof.
  intros Hh Hwf Hr. split.
  - intros Hw. unfold act_bind, history_append. rewrite Hh.
    unfold save_history. cbn [history file status next_id]. rewrite Hw.
    cbn [snd file load_history].
    rewrite json_load_dump; [| |exact Hw].
    + simpl. rewrite map_app, last_last. split; reflexivity.
    + rewrite well_formed_app, Hwf. simpl. rewrite Hr. reflexivity.
  - intros name Hw Hname Hin.
    destruct (list_remove_in r l (py_eq_refl r Hr) Hin) as [l' Hrem].
    exists l'. split; [exact Hrem|].
    assert (Hw' : writable (JArr l') = true)
      by (apply (list_remove_forallb _ _ _ _ Hrem Hw)).
    assert (Hwf' : well_formed (JArr l') = true)
      by (apply (list_remove_forallb _ _ _ _ Hrem Hwf)).
    destruct (delete_entry_found st l l' r name Hh Hname Hrem) as (_ & Hf & _).
    destruct (Hf Hw') as [Hf' _]. rewrite Hf'. cbn [load_history].
    rewrite (json_load_dump _ Hwf' Hw').
    pose proof (list_remove_count r l l' Hrem) as Hc.
    repeat split; [assumption|].
    intros H1. apply count_eq_zero. lia.
Qed.

(** C2 (amended).  An upload with a chosen file appends one record whose
    path is the chosen, non-empty path and whose name is the last component
    of that path, non-empty unless the path ends in a slash.  A located
    record holds the latitude and longitude exactly as decoded, as the two
    float objects the decoder made: nothing confines them to a range. *)
Theorem upload_image_record
    (st : state doc) (l : list json) (file_path : string) (exif : dict) :
  history st = JArr l ->
  file_path <> "" ->
  exists item,
    history (snd (upload_image json_dump json_partial refresh_history
                    float_of_text requests_get file_path exif st))
    = JArr (l ++ [item])
    /\ json_getkey item "path" = Ok (JStr file_path)
    /\ json_getkey item "name" = Ok (JStr (basename file_path))
    /\ (ends_with_slash file_path = false -> basename file_path <> "")
    /\ match get_lat_lon float_of_text exif with
       | Ok (Some (lat, lon)) =>
           json_getkey item "status" = Ok (JStr "ok")
           /\ json_getkey item "lat" = Ok (float_object (next_id st) lat)
           /\ json_getkey item "lon" = Ok (float_object (next_id st + 1) lon)
           /\ float_value (float_object (next_id st) lat) = Some lat
           /\ float_value (float_object (next_id st + 1) lon) = Some lon
           /\ json_getkey item "address" = get_address requests_get lat lon
       | _ => json_getkey item "status" = Ok (JStr "no_gps")
       end.
Proof.
  intros Hh Hp.
  destruct (get_lat_lon_ok float_of_text exif) as [[[lat lon]|] Hc].
  - destruct (get_address_ok requests_get lat lon) as [a Ha].
    rewrite (upload_image_located st l file_path exif lat lon a Hh Hp Hc Ha).
    rewrite Hc, Ha. cbv zeta.
    eexists. split; [destruct (writable _); reflexivity|].
    repeat split; auto using basename_nonempty, float_value_float_object.
  - rewrite (upload_image_unlocated st l file_path exif Hh Hp Hc).
    rewrite Hc. cbv zeta.
    eexists. split; [destruct (writable _); reflexivity|].
    repeat split; auto using basename_nonempty.
Qed.

(** The records an upload builds can be written exactly when the path,
    and the address if there is one, hold no surrogate. *)
Lemma has_surrogate_tail (c : ascii) (s : string) :
  has_surrogate (String c s) = false -> has_surrogate s = false.
Proof.
  destruct s as [|c' s]; [reflexivity|].
  change (has_surrogate (String c (String c' s)))
    with (((byte_of c =? 237) && (160 <=? byte_of c'))
          || has_surrogate (String c' s)).
  intros H. apply orb_false_elim in H as [_ H]. exact H.
Qed.

Lemma has_surrogate_basename (p : string) :
  has_surrogate p = false -> has_surrogate (basename p) = false.
Proof.
  induction p as [|c p IH]; [reflexivity|]. intros H.
  pose proof (has_surrogate_tail c p H) as Hp. simpl basename.
  destruct (existsb _ _); [exact (IH Hp)|].
  destruct (Ascii.eqb c "/"); assumption.
Qed.

Lemma writable_no_gps_item (file_path : string) :
  writable (no_gps_item file_path) = negb (has_surrogate file_path).
Proof.
  destruct (has_surrogate file_path) eqn:H.
  - unfold no_gps_item. cbn -[basename NO_GPS_REASON_TEXT has_surrogate].
    rewrite H. cbn. rewrite !andb_false_r. reflexivity.
  - unfold no_gps_item. cbn -[basename NO_GPS_REASON_TEXT has_surrogate].
    rewrite H, (has_surrogate_basename _ H). reflexivity.
Qed.

Lemma writable_ok_item (file_path : string) (o : Z) (lat lon : float)
    (a : json) :
  writable (ok_item file_path (float_object o lat) (float_object (o + 1) lon) a)
  = negb (has_surrogate file_path) && writable a.
Proof.
  assert (Hf : forall o f, writable (float_object o f) = true)
    by (intros o' f; unfold float_object; destruct (is_nan f); reflexivity).
  unfold ok_item. cbn -[basename has_surrogate float_object].
  rewrite !Hf.
  destruct (has_surrogate file_path) eqn:H.
  - cbn. rewrite !andb_false_r. reflexivity.
  - rewrite (has_surrogate_basename _ H). cbn. rewrite !andb_true_r.
    reflexivity.
Qed.

(** X3.  An upload of a file whose tag table has no [GPSInfo] appends the
    record without location, with the fixed reason.  When the path and
    every text of the history can be encoded, the lengthened sequence is
    written to the document; when one cannot, the call ends with
    [UnicodeEncodeError], the document holds the beginning of the text
    only, and the status line is not set. *)
Theorem upload_without_gps
    (st : state doc) (l : list json) (file_path : string) (exif : dict) :
  history st = JArr l ->
  file_path <> "" ->
  dict_lookup "GPSInfo" exif = None ->
  history (snd (upload_image json_dump json_partial refresh_history
                  float_of_text requests_get file_path exif st))
  = JArr (l ++ [no_gps_item file_path])
  /\ json_getkey (no_gps_item file_path) "status" = Ok (JStr "no_gps")
  /\ json_getkey (no_gps_item file_path) "reason" = Ok (JStr NO_GPS_REASON_TEXT)
  /\ (writable (JArr l) = true ->
      has_surrogate file_path = false ->
      file (snd (upload_image json_dump json_partial refresh_history
                   float_of_text requests_get file_path exif st))
      = Some (json_dump (JArr (l ++ [no_gps_item file_path])))
      /\ status (snd (upload_image json_dump json_partial refresh_history
                        float_of_text requests_get file_path exif st))
         = SavedNoGps (basename file_path))
  /\ (writable (JArr l) = false \/ has_surrogate file_path = true ->
      fst (upload_image json_dump json_partial refresh_history
             float_of_text requests_get file_path exif st)
      = Raise UnicodeEncodeError
      /\ file (snd (upload_image json_dump json_partial refresh_history
                      float_of_text requests_get file_path exif st))
         = Some (json_partial (JArr (l ++ [no_gps_item file_path])))
      /\ status (snd (upload_image json_dump json_partial refresh_history
                        float_of_text requests_get file_path exif st))
         = status st).
Proof.
  intros Hh Hp Hgps.
  assert (Hc : get_lat_lon float_of_text exif = Ok None).
  { unfold get_lat_lon, gps_table. rewrite Hgps. reflexivity. }
  rewrite (upload_image_unlocated st l file_path exif Hh Hp Hc). cbv zeta.
  rewrite writable_app.
  change (writable (JArr [no_gps_item file_path]))
    with (writable (no_gps_item file_path) && true).
  rewrite writable_no_gps_item.
  split; [destruct (_ && _); reflexivity|].
  split; [reflexivity|]. split; [reflexivity|]. split.
  - intros Hw Hs. rewrite Hw, Hs. split; reflexivity.
  - intros [Hw | Hs].
    + rewrite Hw. repeat split.
    + rewrite Hs, andb_false_r. repeat split.
Qed.

(** X4.  A delete that the user declines changes nothing. *)
Theorem delete_entry_declined (st : state doc) (item : json) :
  snd (delete_entry json_dump json_partial refresh_history false item st) = st.
Proof.
  unfold delete_entry, act_bind, lift.
  destruct (json_getkey item "name"); reflexivity.
Qed.

(** X5.  An upload with no file chosen only sets the status line. *)
Theorem upload_image_cancelled (st : state doc) (exif : dict) :
  upload_image json_dump json_partial refresh_history float_of_text
    requests_get "" exif st
  = (Ok tt, State (history st) (file st) NoFileSelected (next_id st)).
Proof. reflexivity. Qed.

(** X6.  After an upload with a chosen file, to a history that is a list,
    the document is the text of the sequence in memory when every text of
    that sequence can be encoded.  When one cannot, the record is in
    memory all the same, the call ends with [UnicodeEncodeError] before
    the status is set or the screen redrawn, and the document holds only
    the beginning of the text. *)
Theorem upload_image_persists
    (st : state doc) (l : list json) (file_path : string) (exif : dict) :
  history st = JArr l ->
  file_path <> "" ->
  (writable (history (snd (upload_image json_dump json_partial refresh_history
                             float_of_text requests_get file_path exif st)))
   = true ->
   file (snd (upload_image json_dump json_partial refresh_history
                float_of_text requests_get file_path exif st))
   = Some (json_dump
             (history (snd (upload_image json_dump json_partial refresh_history
                              float_of_text requests_get file_path exif st)))))
  /\ (writable (history (snd (upload_image json_dump json_partial
                                refresh_history float_of_text requests_get
                                file_path exif st)))
      = false ->
      fst (upload_image json_dump json_partial refresh_history
             float_of_text requests_get file_path exif st)
      = Raise UnicodeEncodeError
      /\ file (snd (upload_image json_dump json_partial refresh_history
                      float_of_text requests_get file_path exif st))
         = Some (json_partial
                   (history (snd (upload_image json_dump json_partial
                                    refresh_history float_of_text requests_get
                                    file_path exif st))))
      /\ status (snd (upload_image json_dump json_partial refresh_history
                        float_of_text requests_get file_path exif st))
         = status st).
Proof.
  intros Hh Hp.
  destruct (get_lat_lon_ok float_of_text exif) as [[[lat lon]|] Hc].
  - destruct (get_address_ok requests_get lat lon) as [a Ha].
    rewrite (upload_image_located st l file_path exif lat lon a Hh Hp Hc Ha).
    cbv zeta. destruct (writable (JArr _)) eqn:Hw; cbn [snd fst history file status];
      rewrite Hw; split; intros H; try discriminate; repeat split.
  - rewrite (upload_image_unlocated st l file_path exif Hh Hp Hc).
    cbv zeta. destruct (writable (JArr _)) eqn:Hw; cbn [snd fst history file status];
      rewrite Hw; split; intros H; try discriminate; repeat split.
Qed.

(** X16.  A confirmed delete that finds its item in a history of which
    another item holds a text that cannot be encoded: the item is removed
    in memory, the document is left with the beginning of the new text
    only, and the [UnicodeEncodeError] is caught by the clause meant for
    the item that is not found, so that the call ends as if nothing had
    happened, the status line unchanged and the screen not redrawn.  A
    restart then finds no history at all. *)
Theorem delete_entry_swallows_encoding_error
    (st : state doc) (l l' : list json) (r name : json) :
  history st = JArr l ->
  json_getkey r "name" = Ok name ->
  list_remove r l = Some l' ->
  writable (JArr l') = false ->
  delete_entry json_dump json_partial refresh_history true r st
  = (Ok tt,
     State (JArr l') (Some (json_partial (JArr l'))) (status st) (next_id st))
  /\ load_history json_load
       (file (snd (delete_entry json_dump json_partial refresh_history true r st)))
     = JArr [].
Proof.
  intros Hh Hname Hrem Hw.
  destruct (delete_entry_found st l l' r name Hh Hname Hrem) as (_ & _ & H).
  rewrite (H Hw). split; [reflexivity|]. simpl.
  rewrite (json_load_partial _ Hw). reflexivity.
Qed.

(** X18.  A confirmed delete of a record that is in the history, the very
    object that the delete button of its row holds, removes that record
    when no item before it equals it, whatever NaN it holds: a NaN made by
    arithmetic equals nothing else, and the record is found by being the
    same object. *)
Theorem delete_entry_own_record
    (st : state doc) (l1 l2 : list json) (r name : json) :
  history st = JArr (l1 ++ r :: l2) ->
  json_getkey r "name" = Ok name ->
  well_formed r = true ->
  (forall y, In y l1 -> py_eq y r = false) ->
  history (snd (delete_entry json_dump json_partial refresh_history true r st))
  = JArr (l1 ++ l2).
Proof.
  intros Hh Hname Hwf Hl1.
  apply (delete_entry_found st _ (l1 ++ l2) r name Hh Hname).
  apply list_remove_first_match; [exact Hl1|]. apply py_eq_refl. exact Hwf.
Qed.

End StoreFacts.

(** ** The geocode client *)

(** X1.  What [get_address] returns, case by case: the [display_name]
    member of a 200 response whose body is an object with that member, and
    the fixed text in every other case; it never raises. *)
Theorem get_address_cases (requests_get : float -> float -> http_result)
    (lat lon : float) :
  (requests_get lat lon = NetworkError ->
   get_address requests_get lat lon = Ok (JStr ADDRESS_NOT_FOUND))
  /\ (forall code body,
        requests_get lat lon = Response code body ->
        code <> 200 ->
        get_address requests_get lat lon = Ok (JStr ADDRESS_NOT_FOUND))
  /\ (requests_get lat lon = Response 200 None ->
      get_address requests_get lat lon = Ok (JStr ADDRESS_NOT_FOUND))
  /\ (forall data,
        requests_get lat lon = Response 200 (Some data) ->
        get_address requests_get lat lon
        = Ok match data with
             | JObj kvs =>
                 match dict_lookup "display_name" kvs with
                 | Some v => v
                 | None => JStr ADDRESS_NOT_FOUND
                 end
             | _ => JStr ADDRESS_NOT_FOUND
             end).
Proof.
  unfold get_address. repeat split.
  - intros ->. reflexivity.
  - intros code body -> Hc. apply Z.eqb_neq in Hc. rewrite Hc. reflexivity.
  - intros ->. reflexivity.
  - intros data ->. simpl.
    destruct data as [| | | | | | |kvs]; try reflexivity.
    simpl. destruct (dict_lookup "display_name" kvs); reflexivity.
Qed.

(** C5 (where the code departs from it).  To a 200 response whose body is
    [{"display_name": null}] the client answers [None], which is no text. *)
Theorem get_address_null_display_name (lat lon : float) :
  get_address (answers (JObj [("display_name", JNull)])) lat lon = Ok JNull
  /\ is_text JNull = false.
Proof. split; reflexivity. Qed.

(** ** The store on the example states *)

Lemma decode_encode (j : json) :
  well_formed j = true -> writable j = true ->
  decode (encode j) = Some (reloaded j).
Proof. intros _ _. simpl. rewrite reloaded_idem. reflexivity. Qed.

Lemma decode_decoded (d : text) (j : json) :
  decode d = Some j -> reloaded j = j.
Proof.
  destruct d as [|j0]; [discriminate|]. simpl. intros [= <-].
  apply reloaded_idem.
Qed.

Lemma decode_cut_short (j : json) :
  writable j = false -> decode (cut_short j) = None.
Proof. reflexivity. Qed.

Lemma delete_entry_first_match_witness :
  (history (snd (delete_entry encode cut_short draw true photo_b
                   (saved [photo_a; photo_b; photo_c; photo_b])))
   = JArr [photo_a; photo_c; photo_b]
   /\ file (snd (delete_entry encode cut_short draw true photo_b
                   (saved [photo_a; photo_b; photo_c; photo_b])))
      = Some (encode (JArr [photo_a; photo_c; photo_b])))
  /\ (history_remove photo_b (saved [photo_a; photo_c])
      = (Raise ValueError, saved [photo_a; photo_c])
      /\ delete_entry encode cut_short draw true photo_b (saved [photo_a; photo_c])
         = (Ok tt, saved [photo_a; photo_c])).
Proof.
  split.
  - apply (proj1 (delete_entry_first_match text encode cut_short draw
                    (saved [photo_a; photo_b; photo_c; photo_b])
                    [photo_a; photo_b; photo_c; photo_b] photo_b
                    (JStr "b.jpg") eq_refl eq_refl)
             [photo_a] photo_b [photo_c; photo_b] eq_refl eq_refl);
      [|reflexivity].
    intros y [<- | []]. reflexivity.
  - apply (proj1 (proj2 (delete_entry_first_match text encode cut_short draw
                    (saved [photo_a; photo_c]) [photo_a; photo_c] photo_b
                    (JStr "b.jpg") eq_refl eq_refl))).
    intros y [<- | [<- | []]]; reflexivity.
Defined.

(** Two records of the same content with NaN of their own, the second one
    deleted: it is the second that goes, not the first with that content.
    And a delete on a history that holds a text with a surrogate: the
    record is gone from memory, the call ends well, and the document is
    not the text of the shortened sequence. *)
Lemma delete_not_first_nor_persisted :
  (reloaded (photo_n 0) = reloaded (photo_n 2)
   /\ history (snd (delete_entry encode cut_short draw true (photo_n 2)
                      (saved [photo_n 0; photo_a; photo_n 2])))
      = JArr [photo_n 0; photo_a])
  /\ (delete_entry encode cut_short draw true photo_a (saved [photo_s; photo_a])
      = (Ok tt, State (JArr [photo_s]) (Some Garbage) NoLabel 0)
      /\ Some Garbage <> Some (encode (JArr [photo_s]))).
Proof. repeat split. discriminate. Qed.

(** The same photograph uploaded twice: deleting it once leaves it in the
    reloaded history.  And a record with a surrogate in its address,
    appended and saved: the save ends with [UnicodeEncodeError] and a
    fresh load finds no record at all. *)
Lemma reload_keeps_or_misses_record :
  (load_history decode
     (file (snd (delete_entry encode cut_short draw true photo_a
                   (saved [photo_a; photo_a]))))
   = JArr [photo_a]
   /\ existsb (fun y => py_eq y photo_a) [photo_a] = true)
  /\ (fst (act_bind (history_append photo_s)
                    (fun _ => save_history encode cut_short) (saved [photo_a]))
      = Raise UnicodeEncodeError
      /\ load_history decode
           (file (snd (act_bind (history_append photo_s)
                                (fun _ => save_history encode cut_short)
                                (saved [photo_a]))))
         = JArr []).
Proof. repeat split. Qed.

Lemma history_round_trip_witness :
  (load_history decode
     (file (snd (act_bind (history_append (photo_n 0))
                          (fun _ => save_history encode cut_short)
                          (saved [photo_a]))))
   = JArr [photo_a; reloaded (photo_n 0)]
   /\ last [photo_a; reloaded (photo_n 0)] JNull = reloaded (photo_n 0))
  /\ (exists l',
        list_remove photo_a [photo_a; photo_c] = Some l'
        /\ load_history decode
             (file (snd (delete_entry encode cut_short draw true photo_a
                           (saved [photo_a; photo_c]))))
           = JArr (map reloaded l')
        /\ count_eq photo_a [photo_a; photo_c] = S (count_eq photo_a l')
        /\ (count_eq photo_a [photo_a; photo_c] = 1%nat ->
            forall y, In y l' -> py_eq y photo_a = false)).
Proof.
  pose proof (history_round_trip text encode cut_short decode draw decode_encode
                (saved [photo_a; photo_c]) [photo_a; photo_c] photo_a eq_refl
                eq_refl eq_refl)
    as [_ H2].
  pose proof (history_round_trip text encode cut_short decode draw decode_encode
                (saved [photo_a]) [photo_a] (photo_n 0) eq_refl eq_refl eq_refl)
    as [H1 _].
  split; [exact (H1 eq_refl)|].
  exact (H2 (JStr "a.jpg") eq_refl eq_refl (or_introl eq_refl)).
Defined.

(** A latitude of 100 degrees is decoded, stored and shown as it is. *)
Lemma latitude_out_of_range :
  history (snd (upload_image encode cut_short draw no_text offline
                  "/photos/d.jpg" (exif_of gps_100_degrees) (saved [])))
  = JArr [ok_item "/photos/d.jpg" (JFloat 100) (JFloat 0)
            (JStr "Address not found")]
  /\ PrimFloat.leb 100 90 = false.
Proof. split; reflexivity. Qed.

Lemma upload_image_record_witness :
  exists item,
    history (snd (upload_image encode cut_short draw no_text
                    (answers (JObj [("display_name", JStr "Pittsburgh, PA")]))
                    "/photos/c.jpg" (exif_of (gps_refs "N" "W"))
                    (saved [photo_a])))
    = JArr ([photo_a] ++ [item])
    /\ json_getkey item "path" = Ok (JStr "/photos/c.jpg")
    /\ json_getkey item "name" = Ok (JStr (basename "/photos/c.jpg"))
    /\ (ends_with_slash "/photos/c.jpg" = false -> basename "/photos/c.jpg" <> "")
    /\ json_getkey item "status" = Ok (JStr "ok")
    /\ json_getkey item "lat" = Ok (JFloat (dms 40 26 46))
    /\ json_getkey item "lon" = Ok (JFloat (- dms 79 58 36))
    /\ float_value (JFloat (dms 40 26 46)) = Some (dms 40 26 46)
    /\ float_value (JFloat (- dms 79 58 36)) = Some (- dms 79 58 36)%float
    /\ json_getkey item "address" = Ok (JStr "Pittsburgh, PA").
Proof.
  refine (upload_image_record text encode cut_short draw no_text
            (answers (JObj [("display_name", JStr "Pittsburgh, PA")]))
            (saved [photo_a]) [photo_a] "/photos/c.jpg"
            (exif_of (gps_refs "N" "W")) eq_refl _).
  discriminate.
Defined.

Lemma upload_without_gps_witness :
  history (snd (upload_image encode cut_short draw no_text offline
                  "/photos/a.jpg" [] (saved [photo_b])))
  = JArr [photo_b; photo_a]
  /\ file (snd (upload_image encode cut_short draw no_text offline
                  "/photos/a.jpg" [] (saved [photo_b])))
     = Some (encode (JArr [photo_b; photo_a])).
Proof.
  pose proof (upload_without_gps text encode cut_short draw no_text offline
                (saved [photo_b]) [photo_b] "/photos/a.jpg" [] eq_refl)
    as H.
  destruct H as (H1 & _ & _ & H2 & _); [discriminate | reflexivity |].
  split; [exact H1|]. exact (proj1 (H2 eq_refl eq_refl)).
Defined.

Lemma upload_image_persists_witness :
  file (snd (upload_image encode cut_short draw no_text offline "/photos/d.jpg"
               (exif_of gps_100_degrees) (saved [photo_a])))
  = Some (encode
            (JArr [photo_a;
                   ok_item "/photos/d.jpg" (JFloat 100) (JFloat 0)
                     (JStr "Address not found")])).
Proof.
  refine (proj1 (upload_image_persists text encode cut_short draw no_text
                   offline (saved [photo_a]) [photo_a] "/photos/d.jpg"
                   (exif_of gps_100_degrees) eq_refl _) eq_refl).
  discriminate.
Defined.

Lemma delete_entry_swallows_encoding_error_witness :
  delete_entry encode cut_short draw true photo_a (saved [photo_s; photo_a])
  = (Ok tt, State (JArr [photo_s]) (Some Garbage) NoLabel 0)
  /\ load_history decode
       (file (snd (delete_entry encode cut_short draw true photo_a
                     (saved [photo_s; photo_a]))))
     = JArr [].
Proof.
  exact (delete_entry_swallows_encoding_error text encode cut_short decode draw
           decode_cut_short (saved [photo_s; photo_a]) [photo_s; photo_a]
           [photo_s] photo_a (JStr "a.jpg") eq_refl eq_refl eq_refl eq_refl).
Defined.

Lemma delete_entry_own_record_witness :
  history (snd (delete_entry encode cut_short draw true (photo_n 2)
                  (saved [photo_n 0; photo_a; photo_n 2])))
  = JArr [photo_n 0; photo_a].
Proof.
  apply (delete_entry_own_record text encode cut_short draw
           (saved [photo_n 0; photo_a; photo_n 2]) [photo_n 0; photo_a] []
           (photo_n 2) (JStr "n.jpg") eq_refl eq_refl eq_refl).
  intros y [<- | [<- | []]]; reflexivity.
Defined.

(** ** The metadata reader *)

Lemma key_eqb_eq (a b : key) : key_eqb a b = true <-> a = b.
Proof.
  destruct a as [n|s], b as [m|t]; simpl; split; intros H;
    try discriminate.
  - apply Z.eqb_eq in H. congruence.
  - injection H as ->. apply Z.eqb_refl.
  - apply String.eqb_eq in H. congruence.
  - injection H as ->. apply String.eqb_refl.
Qed.

Lemma key_eqb_sym (a b : key) : key_eqb a b = key_eqb b a.
Proof.
  destruct a, b; simpl; auto using Z.eqb_sym, String.eqb_sym.
Qed.

(** Looking up after an assignment. *)
Lemma lookup_assign {V : Type} (k k' : key) (v : V) (d : list (key * V)) :
  lookup k (assign k' v d) = if key_eqb k k' then Some v else lookup k d.
Proof.
  induction d as [|[k0 v0] d IH]; simpl.
  - reflexivity.
  - destruct (key_eqb k' k0) eqn:E; simpl.
    + apply key_eqb_eq in E. subst k0.
      destruct (key_eqb k k'); reflexivity.
    + rewrite IH. destruct (key_eqb k k0) eqn:E0; [|reflexivity].
      apply key_eqb_eq in E0. subst k0.
      rewrite key_eqb_sym, E. reflexivity.
Qed.

Lemma find_snoc {A : Type} (p : A -> bool) (l : list A) (a : A) :
  find p (l ++ [a])
  = match find p l with
    | Some x => Some x
    | None => if p a then Some a else None
    end.
Proof.
  induction l as [|x l IH]; simpl; [reflexivity|].
  destruct (p x); [reflexivity | exact IH].
Qed.

(** After a run of assignments a key holds what the last assignment to it
    gave it. *)
Lemma lookup_fold_assign {A V : Type} (kf : A -> key) (vf : A -> V)
    (l : list A) (d : list (key * V)) (k : key) :
  lookup k (fold_left (fun d a => assign (kf a) (vf a) d) l d)
  = match find (fun a => key_eqb k (kf a)) (rev l) with
    | Some a => Some (vf a)
    | None => lookup k d
    end.
Proof.
  revert d. induction l as [|a l IH]; intros d; simpl; [reflexivity|].
  rewrite IH, find_snoc, lookup_assign.
  destruct (find _ (rev l)); [reflexivity|].
  destruct (key_eqb k (kf a)); reflexivity.
Qed.

Lemma dict_lookup_text_entries {V W : Type} (f : V -> W) (s : string)
    (d : list (key * V)) :
  dict_lookup s (text_entries f d) = option_map f (lookup (KName s) d).
Proof.
  induction d as [|[[n|t] v] d IH]; simpl; [reflexivity | exact IH |].
  destruct (String.eqb s t); [reflexivity | exact IH].
Qed.

Lemma fold_left_same {A B : Type} (f g : B -> A -> B) (l : list A) (b : B) :
  (forall b a, f b a = g b a) -> fold_left f l b = fold_left g l b.
Proof.
  intros H. revert b. induction l as [|a l IH]; intros b; simpl;
    [reflexivity|]. rewrite H. apply IH.
Qed.

Section ReaderFacts.

Variable TAGS : Z -> option string.
Variable GPSTAGS : Z -> option string.
Variable float_of_text : string -> option float.

(** What the outer loop stores for a raw value under the tag [t]. *)
Lemma resolve_tag_assign (exif : list (key * tag_value)) (kv : key * raw_value) :
  resolve_tag TAGS GPSTAGS exif kv
  = assign (tag_name TAGS (fst kv))
      (if key_eqb (tag_name TAGS (fst kv)) (KName "GPSInfo")
       then match as_table (snd kv) with
            | Some sub => TTable (resolve_gps GPSTAGS sub)
            | None => pass (snd kv)
            end
       else pass (snd kv))
      exif.
Proof.
  unfold resolve_tag.
  destruct (key_eqb (tag_name TAGS (fst kv)) (KName "GPSInfo")) eqn:E;
    [|reflexivity].
  apply key_eqb_eq in E. rewrite E.
  destruct (as_table (snd kv)); reflexivity.
Qed.

Lemma lookup_extract_exif (raw : list (key * raw_value)) (t : key) :
  lookup t (extract_exif TAGS GPSTAGS (RawTable raw))
  = option_map
      (fun kv =>
         if key_eqb t (KName "GPSInfo")
         then match as_table (snd kv) with
              | Some sub => TTable (resolve_gps GPSTAGS sub)
              | None => pass (snd kv)
              end
         else pass (snd kv))
      (last_tagged TAGS t raw).
Proof.
  unfold extract_exif, last_tagged.
  rewrite (fold_left_same _ _ raw [] resolve_tag_assign).
  rewrite (lookup_fold_assign (fun kv => tag_name TAGS (fst kv))).
  destruct (find _ (rev raw)) as [kv|] eqn:E; [|reflexivity].
  apply find_some in E as [_ E]. apply key_eqb_eq in E. rewrite <- E.
  reflexivity.
Qed.

Lemma lookup_resolve_gps (sub : list (key * value)) (n : key) :
  lookup n (resolve_gps GPSTAGS sub) = option_map snd (last_tagged GPSTAGS n sub).
Proof.
  unfold resolve_gps, last_tagged.
  rewrite (lookup_fold_assign (fun kv => tag_name GPSTAGS (fst kv)) snd).
  destruct (find _ (rev sub)); reflexivity.
Qed.

(** X7.  The reader loses no tag and restructures only [GPSInfo]: under a
    tag the resolved table holds what the last raw entry resolving to that
    tag holds, as it is; under "GPSInfo", when that entry is a nested
    table, it holds the nested table resolved in the same way through
    [GPSTAGS]. *)
Theorem extract_exif_keeps_tags (raw : list (key * raw_value)) :
  (forall t,
      key_eqb t (KName "GPSInfo") = false ->
      lookup t (extract_exif TAGS GPSTAGS (RawTable raw))
      = option_map (fun kv => pass (snd kv)) (last_tagged TAGS t raw))
  /\ lookup (KName "GPSInfo") (extract_exif TAGS GPSTAGS (RawTable raw))
     = option_map
         (fun kv =>
            match as_table (snd kv) with
            | Some sub => TTable (resolve_gps GPSTAGS sub)
            | None => pass (snd kv)
            end)
         (last_tagged TAGS (KName "GPSInfo") raw)
  /\ (forall sub n,
        lookup n (resolve_gps GPSTAGS sub)
        = option_map snd (last_tagged GPSTAGS n sub)).
Proof.
  split; [|split].
  - intros t Ht. rewrite lookup_extract_exif, Ht. reflexivity.
  - rewrite lookup_extract_exif. reflexivity.
  - intros sub n. apply lookup_resolve_gps.
Qed.

(** The GPS table the decoder works on after the reader. *)
Lemma gps_table_after_reader (raw : list (key * raw_value)) (g : key)
    (rv : raw_value) (sub : list (key * value)) :
  last_tagged TAGS (KName "GPSInfo") raw = Some (g, rv) ->
  as_table rv = Some sub ->
  dict_lookup "GPSInfo" (as_dict (extract_exif TAGS GPSTAGS (RawTable raw)))
  = Some (VDict (text_entries (fun v => v) (resolve_gps GPSTAGS sub))).
Proof.
  intros Hg Hsub. unfold as_dict.
  rewrite dict_lookup_text_entries, lookup_extract_exif, Hg. simpl.
  rewrite Hsub. reflexivity.
Qed.

Lemma dict_lookup_gps_after_reader (sub : list (key * value)) (n : string) :
  dict_lookup n (text_entries (fun v => v) (resolve_gps GPSTAGS sub))
  = option_map snd (last_tagged GPSTAGS (KName n) sub).
Proof.
  rewrite dict_lookup_text_entries, lookup_resolve_gps.
  destruct (last_tagged GPSTAGS (KName n) sub); reflexivity.
Qed.

(** Reading then decoding: when the raw table has a nested table under
    the tag named "GPSInfo" and the values of its latitude and longitude
    tags decode, the coordinates are those two values, each signed by the
    value of its reference tag in the same nested table. *)
Lemma read_then_decode (raw : list (key * raw_value)) (g : key)
    (rv : raw_value) (sub : list (key * value))
    (klat klon : key) (vlat vlon : value) (lat lon : float) :
  last_tagged TAGS (KName "GPSInfo") raw = Some (g, rv) ->
  as_table rv = Some sub ->
  last_tagged GPSTAGS (KName "GPSLatitude") sub = Some (klat, vlat) ->
  last_tagged GPSTAGS (KName "GPSLongitude") sub = Some (klon, vlon) ->
  convert_to_degrees float_of_text vlat = Ok (Some lat) ->
  convert_to_degrees float_of_text vlon = Ok (Some lon) ->
  get_lat_lon float_of_text (as_dict (extract_exif TAGS GPSTAGS (RawTable raw)))
  = Ok (Some
          (signed (option_map snd (last_tagged GPSTAGS (KName "GPSLatitudeRef") sub))
             "N" lat,
           signed (option_map snd (last_tagged GPSTAGS (KName "GPSLongitudeRef") sub))
             "E" lon)).
Proof.
  intros Hg Hsub Hklat Hklon Hlat Hlon.
  rewrite (get_lat_lon_signed float_of_text _ _ vlat vlon lat lon
             (gps_table_after_reader raw g rv sub Hg Hsub)).
  - rewrite !dict_lookup_gps_after_reader. reflexivity.
  - rewrite dict_lookup_gps_after_reader, Hklat. reflexivity.
  - rewrite dict_lookup_gps_after_reader, Hklon. reflexivity.
  - exact Hlat.
  - exact Hlon.
Qed.

(** Reading then decoding gives absent, without an exception, when the
    image cannot be read or has no table, when no raw tag is named
    "GPSInfo", and when the tag named "GPSInfo" holds a value that is no
    table (a bare offset, say). *)
Lemma read_without_gps_table (img : image) :
  (forall raw, img = RawTable raw ->
     match last_tagged TAGS (KName "GPSInfo") raw with
     | Some kv => as_table (snd kv) = None
     | None => True
     end) ->
  get_lat_lon float_of_text (as_dict (extract_exif TAGS GPSTAGS img)) = Ok None.
Proof.
  intros H. apply get_lat_lon_absent.
  assert (Hgps : forall k,
             exists e, getkey (gps_table (as_dict (extract_exif TAGS GPSTAGS img))) k
                       = Raise e).
  { intros k. unfold gps_table.
    destruct img as [| | | |raw]; try (simpl; eauto; fail).
    unfold as_dict.
    rewrite dict_lookup_text_entries, lookup_extract_exif.
    specialize (H raw eq_refl).
    destruct (last_tagged TAGS (KName "GPSInfo") raw) as [[g rv]|];
      simpl in *; [|eauto].
    rewrite H.
    destruct rv as [v|sub]; [|discriminate]. simpl.
    destruct v; try discriminate; simpl;
      repeat match goal with
             | |- context [if ?b then _ else _] => destruct b
             end; simpl; eauto. }
  intros vlat vlon lat lon H1. destruct (Hgps "GPSLatitude") as [e He].
  congruence.
Qed.

End ReaderFacts.

(** ** The rows of the history *)

(** What a row that was made shows. *)
Lemma render_row_ok (item : json) (r : row) :
  render_row item = Ok r ->
  del_btn r = item
  /\ json_getkey item "name" = Ok (name_lbl r)
  /\ json_getkey item "path" = Ok (path_lbl r)
  /\ img_btn r = path_lbl r
  /\ thumbnail r = path_lbl r
  /\ (if status_ok item
      then exists addr lat lon lat' lon',
          json_get item "address" (JStr ADDRESS_NOT_FOUND) = Ok addr
          /\ json_getkey item "lat" = Ok lat
          /\ json_getkey item "lon" = Ok lon
          /\ round6 lat = Ok lat'
          /\ round6 lon = Ok lon'
          /\ details_lbl r = Located addr lat' lon'
          /\ maps_btn r = Some (lat, lon)
      else exists reason,
          json_get item "reason" (JStr NO_GPS_REASON_TEXT) = Ok reason
          /\ details_lbl r = Unlocated reason /\ maps_btn r = None).
Proof.
  unfold render_row, status_ok.
  destruct item as [| | | | | | |kvs]; try discriminate.
  cbn -[NO_GPS_REASON_TEXT round6].
  destruct (dict_lookup "path" kvs) as [p|]; [|discriminate].
  cbn -[NO_GPS_REASON_TEXT round6].
  destruct (dict_lookup "name" kvs) as [n|]; [|discriminate].
  cbn -[NO_GPS_REASON_TEXT round6].
  destruct (dict_lookup "status" kvs) as [st|]; cbn -[NO_GPS_REASON_TEXT round6].
  - destruct (py_eq st (JStr "ok")); cbn -[NO_GPS_REASON_TEXT round6].
    + destruct (dict_lookup "address" kvs) as [a|]; cbn -[round6];
        (destruct (dict_lookup "lat" kvs) as [lat|]; [|discriminate];
         cbn -[round6];
         destruct (round6 lat) as [lat'|] eqn:Elat; [|discriminate];
         cbn -[round6];
         destruct (dict_lookup "lon" kvs) as [lon|]; [|discriminate];
         cbn -[round6];
         destruct (round6 lon) as [lon'|] eqn:Elon; [|discriminate];
         cbn -[round6];
         intros [= <-]; cbn -[round6];
         repeat split; eauto 12).
    + destruct (dict_lookup "reason" kvs); cbn -[NO_GPS_REASON_TEXT];
        intros [= <-]; cbn -[NO_GPS_REASON_TEXT]; repeat split; eauto.
  - destruct (dict_lookup "reason" kvs); cbn -[NO_GPS_REASON_TEXT];
      intros [= <-]; cbn -[NO_GPS_REASON_TEXT]; repeat split; eauto.
Qed.

Lemma round6_number (x : json) :
  is_number x = true -> exists y, round6 x = Ok y.
Proof. destruct x; try discriminate; simpl; eauto. Qed.

(** An item that can be shown gets its row. *)
Lemma render_row_displayable (item : json) :
  displayable_item item = true -> exists r, render_row item = Ok r.
Proof.
  unfold displayable_item, render_row.
  destruct item as [| | | | | | |kvs]; try discriminate.
  cbn -[NO_GPS_REASON_TEXT round6].
  destruct (dict_lookup "path" kvs) as [[| | | | |p| |]|]; try discriminate.
  destruct (dict_lookup "name" kvs) as [[| | | | |n| |]|]; try discriminate.
  cbn -[NO_GPS_REASON_TEXT round6].
  destruct (dict_lookup "status" kvs) as [st|]; cbn -[NO_GPS_REASON_TEXT round6].
  - destruct (py_eq st (JStr "ok")); cbn -[NO_GPS_REASON_TEXT round6].
    + destruct (dict_lookup "lat" kvs) as [lat|]; [|discriminate].
      destruct (dict_lookup "lon" kvs) as [lon|]; [|discriminate].
      intros H. apply andb_prop in H as [Hlat Hlon].
      destruct (round6_number lat Hlat) as [lat' Elat].
      destruct (round6_number lon Hlon) as [lon' Elon].
      destruct (dict_lookup "address" kvs); cbn -[round6];
        rewrite Elat; cbn -[round6]; rewrite Elon; cbn; eauto.
    + intros _. destruct (dict_lookup "reason" kvs); cbn; eauto.
  - intros _. destruct (dict_lookup "reason" kvs); cbn; eauto.
Qed.

(** X10.  Whatever the history list holds, the rows that are drawn are the
    rows of its items up to the first item that cannot be shown, in order,
    each delete button carrying its own item and each such item having the
    name the confirmation asks about; the call ends well exactly when no
    item is left over, and otherwise with the exception of the first item
    that is. *)
Theorem render_rows_prefix (l : list json) :
  exists rest,
    l = map del_btn (fst (render_rows l)) ++ rest
    /\ Forall (fun r => json_getkey (del_btn r) "name" = Ok (name_lbl r)
                        /\ json_getkey (del_btn r) "path" = Ok (path_lbl r))
         (fst (render_rows l))
    /\ match snd (render_rows l) with
       | Ok _ => rest = []
       | Raise e => exists bad rest', rest = bad :: rest' /\ render_row bad = Raise e
       end.
Proof.
  induction l as [|item l (rest & Hl & Hrows & Hout)]; simpl.
  - exists []. repeat split; constructor.
  - destruct (render_row item) as [r|e] eqn:E; simpl.
    + destruct (render_row_ok item r E) as (Hd & Hn & Hp & _).
      exists rest. split; [|split].
      * rewrite Hd. f_equal. exact Hl.
      * constructor; [|exact Hrows]. rewrite Hd. split; assumption.
      * exact Hout.
    + exists (item :: l). repeat split; [constructor|]. eauto.
Qed.

Lemma render_rows_displayable (l : list json) :
  forallb displayable_item l = true ->
  snd (render_rows l) = Ok tt /\ map del_btn (fst (render_rows l)) = l.
Proof.
  induction l as [|item l IH]; simpl; intros H; [split; reflexivity|].
  apply andb_prop in H as [Hi Hl].
  destruct (render_row_displayable item Hi) as [r Hr]. rewrite Hr. simpl.
  destruct (IH Hl) as [H1 H2].
  destruct (render_row_ok item r Hr) as (Hd & _).
  split; [exact H1|]. rewrite Hd, H2. reflexivity.
Qed.

(** X11.  A history whose items can all be shown is drawn in full and
    without an exception: the placeholder for the empty list, and otherwise
    one row per item, in order, with the item's name and path, with the
    address, the two coordinates rounded to six decimals and a maps button
    on the coordinates as they are stored for an item of status "ok", and
    with the reason and no maps button for any other. *)
Theorem refresh_history_displayable (l : list json) :
  forallb displayable_item l = true ->
  snd (refresh_history (JArr l)) = Ok tt
  /\ (l = [] -> fst (refresh_history (JArr l)) = Placeholder)
  /\ (l <> [] ->
      exists rs,
        fst (refresh_history (JArr l)) = Rows rs
        /\ map del_btn rs = l
        /\ Forall
             (fun r =>
                json_getkey (del_btn r) "name" = Ok (name_lbl r)
                /\ json_getkey (del_btn r) "path" = Ok (path_lbl r)
                /\ img_btn r = path_lbl r
                /\ (if status_ok (del_btn r)
                    then exists addr lat lon lat' lon',
                        json_get (del_btn r) "address" (JStr ADDRESS_NOT_FOUND)
                        = Ok addr
                        /\ json_getkey (del_btn r) "lat" = Ok lat
                        /\ json_getkey (del_btn r) "lon" = Ok lon
                        /\ round6 lat = Ok lat'
                        /\ round6 lon = Ok lon'
                        /\ details_lbl r = Located addr lat' lon'
                        /\ maps_btn r = Some (lat, lon)
                    else exists reason,
                        json_get (del_btn r) "reason" (JStr NO_GPS_REASON_TEXT)
                        = Ok reason
                        /\ details_lbl r = Unlocated reason
                        /\ maps_btn r = None))
             rs).
Proof.
  intros H. destruct (render_rows_displayable l H) as [Hout Hmap].
  unfold refresh_history. destruct l as [|item l]; simpl json_truthy; cbv iota.
  - repeat split. intros []. reflexivity.
  - split; [exact Hout|]. split; [discriminate|]. intros _.
    exists (fst (render_rows (item :: l))). split; [reflexivity|].
    split; [exact Hmap|].
    clear Hout Hmap. revert H. generalize (item :: l) as l0. clear.
    induction l0 as [|i l0 IH]; simpl; intros H; [constructor|].
    apply andb_prop in H as [Hi Hl].
    destruct (render_row_displayable i Hi) as [r Hr]. rewrite Hr. simpl.
    constructor; [|exact (IH Hl)].
    destruct (render_row_ok i r Hr) as (Hd & Hn & Hp & Hb & _ & Hs).
    rewrite Hd. repeat split; assumption.
Qed.

Lemma refresh_history_ok (l : list json) :
  forallb displayable_item l = true -> snd (refresh_history (JArr l)) = Ok tt.
Proof.
  intros H. unfold refresh_history.
  destruct (json_truthy (JArr l)); [|reflexivity].
  apply (render_rows_displayable l H).
Qed.

(** ** The two actions, step by step *)

Section ActionFacts.

Variable doc : Type.
Variable json_dump : json -> doc.
Variable json_partial : json -> doc.
Variable json_load : doc -> option json.
Variable refresh_history : json -> res unit.
Variable float_of_text : string -> option float.
Variable requests_get : float -> float -> http_result.

Hypothesis json_load_dump :
  forall j : json,
    well_formed j = true -> writable j = true ->
    json_load (json_dump j) = Some (reloaded j).

Hypothesis json_load_partial :
  forall j : json, writable j = false -> json_load (json_partial j) = None.

(** An upload either appends one record and writes, as far as the texts
    can be encoded, or leaves the history and the document as they were. *)
Lemma upload_image_outcome (st : state doc) (file_path : string) (exif : dict) :
  (exists l item,
      history st = JArr l
      /\ file_path <> ""
      /\ (item = no_gps_item file_path
          \/ exists lat lon a,
              item = ok_item file_path (float_object (next_id st) lat)
                       (float_object (next_id st + 1) lon) a)
      /\ history (snd (upload_image json_dump json_partial refresh_history
                         float_of_text requests_get file_path exif st))
         = JArr (l ++ [item])
      /\ (writable (JArr (l ++ [item])) = true ->
          fst (upload_image json_dump json_partial refresh_history
                 float_of_text requests_get file_path exif st)
          = refresh_history (JArr (l ++ [item]))
          /\ file (snd (upload_image json_dump json_partial refresh_history
                          float_of_text requests_get file_path exif st))
             = Some (json_dump (JArr (l ++ [item]))))
      /\ (writable (JArr (l ++ [item])) = false ->
          fst (upload_image json_dump json_partial refresh_history
                 float_of_text requests_get file_path exif st)
          = Raise UnicodeEncodeError
          /\ file (snd (upload_image json_dump json_partial refresh_history
                          float_of_text requests_get file_path exif st))
             = Some (json_partial (JArr (l ++ [item])))
          /\ status (snd (upload_image json_dump json_partial refresh_history
                            float_of_text requests_get file_path exif st))
             = status st))
  \/ (history (snd (upload_image json_dump json_partial refresh_history
                      float_of_text requests_get file_path exif st))
      = history st
      /\ file (snd (upload_image json_dump json_partial refresh_history
                      float_of_text requests_get file_path exif st))
         = file st
      /\ (file_path = ""
          /\ fst (upload_image json_dump json_partial refresh_history
                    float_of_text requests_get file_path exif st) = Ok tt
          \/ is_sequence (history st) = false)).
Proof.
  destruct (String.eqb file_path "") eqn:Hne.
  - right. unfold upload_image. rewrite Hne. simpl.
    apply String.eqb_eq in Hne. auto.
  - destruct (history st) as [| | | | | |l|] eqn:Hh;
      try (right; unfold upload_image; rewrite Hne;
           destruct (get_lat_lon_ok float_of_text exif) as [[[lat lon]|] Hc];
           unfold act_bind, lift, new_float; rewrite Hc;
           cbn [history file status next_id];
           [destruct (get_address_ok requests_get lat lon) as [a Ha];
            rewrite Ha|];
           unfold history_append; cbn [history file status next_id];
           rewrite Hh; simpl; auto; fail).
    apply String.eqb_neq in Hne. left.
    destruct (get_lat_lon_ok float_of_text exif) as [[[lat lon]|] Hc].
    + destruct (get_address_ok requests_get lat lon) as [a Ha].
      exists l, (ok_item file_path (float_object (next_id st) lat)
                   (float_object (next_id st + 1) lon) a).
      rewrite (upload_image_located doc json_dump json_partial refresh_history
                 float_of_text requests_get st l file_path exif lat lon a
                 Hh Hne Hc Ha).
      cbv zeta. split; [reflexivity|]. split; [exact Hne|].
      split; [right; eauto|].
      destruct (writable (JArr _)); repeat split; discriminate.
    + exists l, (no_gps_item file_path).
      rewrite (upload_image_unlocated doc json_dump json_partial refresh_history
                 float_of_text requests_get st l file_path exif Hh Hne Hc).
      cbv zeta. split; [reflexivity|]. split; [exact Hne|].
      split; [left; reflexivity|].
      destruct (writable (JArr _)); repeat split; discriminate.
Qed.

(** A delete either removes the first match and writes, as far as the
    texts can be encoded, or leaves the history and the document as they
    were. *)
Lemma delete_entry_outcome (st : state doc) (confirm : bool) (item : json) :
  (exists l l' name,
      history st = JArr l
      /\ confirm = true
      /\ json_getkey item "name" = Ok name
      /\ list_remove item l = Some l'
      /\ history (snd (delete_entry json_dump json_partial refresh_history
                         confirm item st))
         = JArr l'
      /\ (writable (JArr l') = true ->
          file (snd (delete_entry json_dump json_partial refresh_history
                       confirm item st))
          = Some (json_dump (JArr l'))
          /\ (refresh_history (JArr l') = Ok tt ->
              fst (delete_entry json_dump json_partial refresh_history
                     confirm item st) = Ok tt))
      /\ (writable (JArr l') = false ->
          fst (delete_entry json_dump json_partial refresh_history
                 confirm item st) = Ok tt
          /\ file (snd (delete_entry json_dump json_partial refresh_history
                          confirm item st))
             = Some (json_partial (JArr l'))))
  \/ (history (snd (delete_entry json_dump json_partial refresh_history
                      confirm item st))
      = history st
      /\ file (snd (delete_entry json_dump json_partial refresh_history
                      confirm item st))
         = file st
      /\ (forall name l,
            json_getkey item "name" = Ok name ->
            history st = JArr l ->
            fst (delete_entry json_dump json_partial refresh_history
                   confirm item st) = Ok tt)).
Proof.
  destruct (json_getkey item "name") as [name|e] eqn:Hn.
  2:{ right. unfold delete_entry, act_bind, lift. rewrite Hn. simpl.
      repeat split; discriminate. }
  destruct confirm.
  2:{ right. unfold delete_entry, act_bind, lift. rewrite Hn. simpl.
      repeat split; reflexivity. }
  destruct (history st) as [| | | | | |l|] eqn:Hh;
    try (right; unfold delete_entry, act_bind, lift, except_ValueError_pass,
           history_remove; rewrite Hn, Hh; simpl; rewrite Hh;
         repeat split; discriminate).
  destruct (list_remove item l) as [l'|] eqn:Hr.
  - left. exists l, l', name.
    destruct (delete_entry_found doc json_dump json_partial refresh_history
                st l l' item name Hh Hn Hr) as (H1 & H2 & H3).
    do 3 (split; [reflexivity|]). split; [exact Hr|]. split; [exact H1|].
    split.
    + intros Hw. destruct (H2 Hw) as [Hf Hok]. split; [exact Hf|].
      intros Hd. rewrite (Hok Hd). reflexivity.
    + intros Hw. rewrite (H3 Hw). split; reflexivity.
  - right.
    destruct (delete_entry_not_found doc json_dump json_partial refresh_history
                st l item name Hh Hn Hr) as [_ H].
    rewrite H. simpl. rewrite Hh. repeat split; reflexivity.
Qed.

(** X12.  On a history whose texts can be encoded and whose document is
    in step with it, uploading a file and then deleting the record just
    built, when that record equals no earlier item, gives back the
    history and the document of before the upload; and so it does when
    the upload itself failed to write the longer history. *)
Theorem upload_then_delete_restores
    (st : state doc) (l : list json) (file_path : string) (exif : dict) :
  history st = JArr l ->
  file st = Some (json_dump (JArr l)) ->
  writable (JArr l) = true ->
  file_path <> "" ->
  exists item,
    history (snd (upload_image json_dump json_partial refresh_history
                    float_of_text requests_get file_path exif st))
    = JArr (l ++ [item])
    /\ (well_formed item = true ->
        (forall y, In y l -> py_eq y item = false) ->
        history
          (snd (delete_entry json_dump json_partial refresh_history true item
                  (snd (upload_image json_dump json_partial refresh_history
                          float_of_text requests_get file_path exif st))))
        = JArr l
        /\ file
             (snd (delete_entry json_dump json_partial refresh_history true item
                     (snd (upload_image json_dump json_partial refresh_history
                             float_of_text requests_get file_path exif st))))
           = file st).
Proof.
  intros Hh Hf Hw Hp.
  destruct (upload_image_outcome st file_path exif)
    as [(l0 & item & Hh0 & _ & Hitem & Hst1 & _)
       | (_ & _ & [[Hp' _] | Hs])];
    [| contradiction | rewrite Hh in Hs; discriminate].
  rewrite Hh in Hh0. injection Hh0 as <-.
  exists item. split; [exact Hst1|].
  intros Hwf Hnew.
  assert (Hname : exists name, json_getkey item "name" = Ok name).
  { destruct Hitem as [-> | (lat & lon & a & ->)]; simpl; eauto. }
  destruct Hname as [name Hname].
  destruct (delete_entry_found doc json_dump json_partial refresh_history _
              (l ++ [item]) l item name Hst1 Hname) as (H1 & H2 & _).
  - rewrite <- (app_nil_r l) at 2.
    apply list_remove_first_match; [exact Hnew|].
    apply py_eq_refl. exact Hwf.
  - split; [exact H1|]. rewrite Hf. apply (H2 Hw).
Qed.

(** X17.  An upload whose record, or whose history, holds a text that
    cannot be encoded ends with [UnicodeEncodeError] after the record was
    appended and the document emptied: the record is in memory, the
    document holds the beginning of the text only, and a restart finds no
    history at all, the earlier records included. *)
Theorem upload_refused_loses_document
    (st : state doc) (l : list json) (file_path : string) (exif : dict) :
  history st = JArr l ->
  file_path <> "" ->
  writable (history (snd (upload_image json_dump json_partial refresh_history
                            float_of_text requests_get file_path exif st)))
  = false ->
  fst (upload_image json_dump json_partial refresh_history
         float_of_text requests_get file_path exif st)
  = Raise UnicodeEncodeError
  /\ (exists item,
        history (snd (upload_image json_dump json_partial refresh_history
                        float_of_text requests_get file_path exif st))
        = JArr (l ++ [item]))
  /\ load_history json_load
       (file (snd (upload_image json_dump json_partial refresh_history
                     float_of_text requests_get file_path exif st)))
     = JArr [].
Proof.
  intros Hh Hp Hw.
  destruct (upload_image_outcome st file_path exif)
    as [(l0 & item & Hh0 & _ & _ & Hst1 & _ & Hbad)
       | (_ & _ & [[Hp' _] | Hs])];
    [| contradiction | rewrite Hh in Hs; discriminate].
  rewrite Hh in Hh0. injection Hh0 as <-.
  rewrite Hst1 in Hw. destruct (Hbad Hw) as (H1 & H2 & _).
  split; [exact H1|]. split; [eauto|].
  rewrite H2. simpl. rewrite (json_load_partial _ Hw). reflexivity.
Qed.

End ActionFacts.

(** ** The running application *)

Section AppFacts.

Variable doc : Type.
Variable json_dump : json -> doc.
Variable json_partial : json -> doc.
Variable json_load : doc -> option json.
Variable float_of_text : string -> option float.
Variable TAGS : Z -> option string.
Variable GPSTAGS : Z -> option string.

Hypothesis json_load_dump :
  forall j : json,
    well_formed j = true -> writable j = true ->
    json_load (json_dump j) = Some (reloaded j).

(** The NaN of a value that was loaded are all the decoder's. *)
Hypothesis json_load_decoded :
  forall (d : doc) (j : json), json_load d = Some j -> reloaded j = j.

Lemma run_app (es1 es2 : list event) (st : state doc) :
  run json_dump json_partial float_of_text TAGS GPSTAGS (es1 ++ es2) st
  = run json_dump json_partial float_of_text TAGS GPSTAGS es2
      (run json_dump json_partial float_of_text TAGS GPSTAGS es1 st).
Proof.
  revert st. induction es1 as [|e es1 IH]; intros st; simpl;
    [reflexivity | apply IH].
Qed.

(** X8.  From the file to the record: an upload of an image whose raw table
    has a nested table under the tag named "GPSInfo", with latitude and
    longitude values that decode, appends the record of status "ok" with
    these two values, each signed by its reference tag, and with the
    address the geocoder gave for exactly these coordinates.  The
    lengthened sequence is written to the document when the path, the
    address and the history hold no text that cannot be encoded; when
    one does, the call ends with [UnicodeEncodeError] and the document
    holds the beginning of the text only. *)
Theorem upload_of_image_with_gps
    (st : state doc) (l : list json) (file_path : string)
    (requests_get : float -> float -> http_result)
    (raw : list (key * raw_value)) (g : key) (rv : raw_value)
    (sub : list (key * value)) (klat klon : key) (vlat vlon : value)
    (lat lon : float) :
  history st = JArr l ->
  file_path <> "" ->
  last_tagged TAGS (KName "GPSInfo") raw = Some (g, rv) ->
  as_table rv = Some sub ->
  last_tagged GPSTAGS (KName "GPSLatitude") sub = Some (klat, vlat) ->
  last_tagged GPSTAGS (KName "GPSLongitude") sub = Some (klon, vlon) ->
  convert_to_degrees float_of_text vlat = Ok (Some lat) ->
  convert_to_degrees float_of_text vlon = Ok (Some lon) ->
  exists a item,
    get_address requests_get
      (signed (option_map snd (last_tagged GPSTAGS (KName "GPSLatitudeRef") sub))
         "N" lat)
      (signed (option_map snd (last_tagged GPSTAGS (KName "GPSLongitudeRef") sub))
         "E" lon)
    = Ok a
    /\ item
       = ok_item file_path
           (float_object (next_id st)
              (signed (option_map snd
                         (last_tagged GPSTAGS (KName "GPSLatitudeRef") sub))
                 "N" lat))
           (float_object (next_id st + 1)
              (signed (option_map snd
                         (last_tagged GPSTAGS (KName "GPSLongitudeRef") sub))
                 "E" lon))
           a
    /\ history (snd (handle json_dump json_partial float_of_text TAGS GPSTAGS
                       (Upload file_path (RawTable raw) requests_get) st))
       = JArr (l ++ [item])
    /\ (writable (JArr l) && negb (has_surrogate file_path) && writable a = true ->
        file (snd (handle json_dump json_partial float_of_text TAGS GPSTAGS
                     (Upload file_path (RawTable raw) requests_get) st))
        = Some (json_dump (JArr (l ++ [item])))
        /\ status (snd (handle json_dump json_partial float_of_text TAGS GPSTAGS
                          (Upload file_path (RawTable raw) requests_get) st))
           = Saved (basename file_path))
    /\ (writable (JArr l) && negb (has_surrogate file_path) && writable a = false ->
        fst (handle json_dump json_partial float_of_text TAGS GPSTAGS
               (Upload file_path (RawTable raw) requests_get) st)
        = Raise UnicodeEncodeError
        /\ file (snd (handle json_dump json_partial float_of_text TAGS GPSTAGS
                        (Upload file_path (RawTable raw) requests_get) st))
           = Some (json_partial (JArr (l ++ [item])))
        /\ status (snd (handle json_dump json_partial float_of_text TAGS GPSTAGS
                          (Upload file_path (RawTable raw) requests_get) st))
           = status st).
Proof.
  intros Hh Hp Hg Hsub Hklat Hklon Hlat Hlon.
  pose proof (read_then_decode TAGS GPSTAGS float_of_text raw g rv sub
                klat klon vlat vlon lat lon Hg Hsub Hklat Hklon Hlat Hlon)
    as Hc.
  destruct (get_address_ok requests_get
              (signed (option_map snd
                         (last_tagged GPSTAGS (KName "GPSLatitudeRef") sub))
                 "N" lat)
              (signed (option_map snd
                         (last_tagged GPSTAGS (KName "GPSLongitudeRef") sub))
                 "E" lon)) as [a Ha].
  exists a. eexists. split; [exact Ha|]. split; [reflexivity|].
  unfold handle.
  rewrite (upload_image_located doc json_dump json_partial _ float_of_text
             requests_get st l file_path _ _ _ a Hh Hp Hc Ha).
  cbv zeta. rewrite writable_app.
  match goal with
  | |- context [writable (JArr [?i])] =>
      change (writable (JArr [i])) with (writable i && true)
  end.
  rewrite writable_ok_item, andb_true_r, andb_assoc.
  destruct (writable (JArr l) && negb (has_surrogate file_path) && writable a);
    repeat split; discriminate.
Qed.

(** X9.  An upload of an image that cannot be read, that has no table, that
    has no tag named "GPSInfo", or whose "GPSInfo" tag holds a value that
    is no table, appends the record of status "no_gps" with the fixed
    reason; the lengthened sequence is written to the document when the
    path and the history hold no text that cannot be encoded, and when
    one does the call ends with [UnicodeEncodeError] and the document
    holds the beginning of the text only. *)
Theorem upload_of_image_without_gps
    (st : state doc) (l : list json) (file_path : string)
    (requests_get : float -> float -> http_result) (img : image) :
  history st = JArr l ->
  file_path <> "" ->
  (forall raw, img = RawTable raw ->
     match last_tagged TAGS (KName "GPSInfo") raw with
     | Some kv => as_table (snd kv) = None
     | None => True
     end) ->
  history (snd (handle json_dump json_partial float_of_text TAGS GPSTAGS
                  (Upload file_path img requests_get) st))
  = JArr (l ++ [no_gps_item file_path])
  /\ (writable (JArr l) && negb (has_surrogate file_path) = true ->
      file (snd (handle json_dump json_partial float_of_text TAGS GPSTAGS
                   (Upload file_path img requests_get) st))
      = Some (json_dump (JArr (l ++ [no_gps_item file_path])))
      /\ status (snd (handle json_dump json_partial float_of_text TAGS GPSTAGS
                        (Upload file_path img requests_get) st))
         = SavedNoGps (basename file_path))
  /\ (writable (JArr l) && negb (has_surrogate file_path) = false ->
      fst (handle json_dump json_partial float_of_text TAGS GPSTAGS
             (Upload file_path img requests_get) st)
      = Raise UnicodeEncodeError
      /\ file (snd (handle json_dump json_partial float_of_text TAGS GPSTAGS
                      (Upload file_path img requests_get) st))
         = Some (json_partial (JArr (l ++ [no_gps_item file_path])))
      /\ status (snd (handle json_dump json_partial float_of_text TAGS GPSTAGS
                        (Upload file_path img requests_get) st))
         = status st).
Proof.
  intros Hh Hp Himg.
  pose proof (read_without_gps_table TAGS GPSTAGS float_of_text img Himg) as Hc.
  unfold handle.
  rewrite (upload_image_unlocated doc json_dump json_partial _ float_of_text
             requests_get st l file_path _ Hh Hp Hc).
  cbv zeta. rewrite writable_app.
  change (writable (JArr [no_gps_item file_path]))
    with (writable (no_gps_item file_path) && true).
  rewrite writable_no_gps_item, andb_true_r.
  destruct (writable (JArr l) && negb (has_surrogate file_path));
    repeat split; discriminate.
Qed.

(** C7 (where the code departs from it).  A document that holds [null] is
    valid JSON: [load_history] returns what was parsed, [None], where the
    two other paths of the function return the empty list.  It is no
    sequence; the program starts on it, showing the placeholder, and the
    first upload fails with [AttributeError], leaving history and document
    as they were.  On a document that holds a number other than zero the
    program does not even start. *)
Theorem load_history_null_document
    (d : doc) (file_path : string) (img : image)
    (requests_get : float -> float -> http_result) :
  json_load d = Some JNull ->
  file_path <> "" ->
  load_history json_load None = JArr []
  /\ (forall d', json_load d' = None -> load_history json_load (Some d') = JArr [])
  /\ load_history json_load (Some d) = JNull
  /\ is_sequence (load_history json_load (Some d)) = false
  /\ launch json_load (Some d) = Some (start json_load (Some d))
  /\ fst (handle json_dump json_partial float_of_text TAGS GPSTAGS
            (Upload file_path img requests_get) (start json_load (Some d)))
     = Raise AttributeError
  /\ history (snd (handle json_dump json_partial float_of_text TAGS GPSTAGS
                     (Upload file_path img requests_get)
                     (start json_load (Some d))))
     = JNull
  /\ file (snd (handle json_dump json_partial float_of_text TAGS GPSTAGS
                  (Upload file_path img requests_get)
                  (start json_load (Some d))))
     = Some d
  /\ (forall d' n,
        json_load d' = Some (JInt n) -> n <> 0 -> launch json_load (Some d') = None).
Proof.
  intros Hd Hp.
  assert (Hne : String.eqb file_path "" = false)
    by (apply String.eqb_neq; exact Hp).
  split; [reflexivity|]. split.
  { intros d' Hd'. simpl. rewrite Hd'. reflexivity. }
  split; [simpl; rewrite Hd; reflexivity|].
  split; [simpl; rewrite Hd; reflexivity|].
  split; [unfold launch, start, load_history; rewrite Hd; reflexivity|].
  assert (Hup : forall exif refresh,
             upload_image json_dump json_partial refresh float_of_text
               requests_get file_path exif (start json_load (Some d))
             = (Raise AttributeError,
                State JNull (Some d) NoLabel
                  (next_id (snd (upload_image json_dump json_partial refresh
                                   float_of_text requests_get file_path exif
                                   (start json_load (Some d))))))).
  { intros exif refresh.
    unfold upload_image, start, load_history. rewrite Hne, Hd.
    destruct (get_lat_lon_ok float_of_text exif) as [[[lat lon]|] Hc];
      unfold act_bind, lift, new_float; rewrite Hc;
      cbn [history file status next_id].
    - destruct (get_address_ok requests_get lat lon) as [a Ha]. rewrite Ha.
      reflexivity.
    - reflexivity. }
  unfold handle. rewrite Hup. cbn [fst snd history file].
  do 3 (split; [reflexivity|]).
  intros d' n Hd' Hn. unfold launch, start, load_history. rewrite Hd'.
  unfold refresh_history. simpl.
  apply Z.eqb_neq in Hn. rewrite Hn. reflexivity.
Qed.

(** An action that leaves a history that is well formed and can be written
    leaves the document in step with it. *)
Lemma handle_in_step (e : event) (st : state doc) :
  load_history json_load (file st) = reloaded (history st) ->
  well_formed
    (history (snd (handle json_dump json_partial float_of_text TAGS GPSTAGS e st)))
  = true ->
  writable
    (history (snd (handle json_dump json_partial float_of_text TAGS GPSTAGS e st)))
  = true ->
  load_history json_load
    (file (snd (handle json_dump json_partial float_of_text TAGS GPSTAGS e st)))
  = reloaded
      (history (snd (handle json_dump json_partial float_of_text TAGS GPSTAGS e st))).
Proof.
  intros Hst.
  destruct e as [file_path img requests_get | confirm item]; unfold handle.
  - destruct (upload_image_outcome doc json_dump json_partial
                (fun h => snd (refresh_history h)) float_of_text requests_get
                st file_path (as_dict (extract_exif TAGS GPSTAGS img)))
      as [(l & it & _ & _ & _ & Hh & Hgood & _) | (Hh & Hf & _)].
    + rewrite Hh. intros Hwf Hw. destruct (Hgood Hw) as [_ Hf].
      rewrite Hf. simpl load_history. rewrite (json_load_dump _ Hwf Hw).
      reflexivity.
    + rewrite Hh, Hf. intros _ _. exact Hst.
  - destruct (delete_entry_outcome doc json_dump json_partial
                (fun h => snd (refresh_history h)) st confirm item)
      as [(l & l' & name & _ & _ & _ & _ & Hh & Hgood & _) | (Hh & Hf & _)].
    + rewrite Hh. intros Hwf Hw. destruct (Hgood Hw) as [Hf _].
      rewrite Hf. simpl load_history. rewrite (json_load_dump _ Hwf Hw).
      reflexivity.
    + rewrite Hh, Hf. intros _ _. exact Hst.
Qed.

(** X13.  Whatever the document the program started on, as long as the
    histories that the uploads and deletes lead to are Python values whose
    texts can all be encoded, a restart would load the history that is in
    memory: after the events, loading the document gives the current
    history, every NaN read as the decoder's. *)
Theorem restart_recovers_history
    (es : list event) (f : option doc) (st0 : state doc) :
  launch json_load f = Some st0 ->
  (forall n : nat,
      well_formed
        (history (run json_dump json_partial float_of_text TAGS GPSTAGS
                    (firstn n es) st0)) = true
      /\ writable
           (history (run json_dump json_partial float_of_text TAGS GPSTAGS
                       (firstn n es) st0)) = true) ->
  st0 = start json_load f
  /\ load_history json_load
       (file (run json_dump json_partial float_of_text TAGS GPSTAGS es st0))
     = reloaded
         (history (run json_dump json_partial float_of_text TAGS GPSTAGS es st0)).
Proof.
  assert (H : forall st : state doc,
             load_history json_load (file st) = reloaded (history st) ->
             (forall n : nat,
                 well_formed
                   (history (run json_dump json_partial float_of_text TAGS
                               GPSTAGS (firstn n es) st)) = true
                 /\ writable
                      (history (run json_dump json_partial float_of_text TAGS
                                  GPSTAGS (firstn n es) st)) = true) ->
             load_history json_load
               (file (run json_dump json_partial float_of_text TAGS GPSTAGS es st))
             = reloaded
                 (history (run json_dump json_partial float_of_text TAGS GPSTAGS
                             es st))).
  { induction es as [|e es IH]; intros st Hst Hall; simpl; [exact Hst|].
    apply IH.
    - destruct (Hall 1%nat) as [Hwf Hw]. apply handle_in_step; assumption.
    - intros n. exact (Hall (S n)). }
  intros Hl Hall.
  assert (Hst0 : st0 = start json_load f).
  { unfold launch in Hl. destruct (snd (refresh_history _)); congruence. }
  split; [exact Hst0|]. apply H; [|exact Hall]. subst st0.
  unfold start. simpl.
  destruct f as [d|]; simpl; [|reflexivity].
  destruct (json_load d) as [j|] eqn:E; [|reflexivity].
  symmetry. apply (json_load_decoded d j E).
Qed.

Lemma displayable_built (file_path : string) (lat lon a : json) :
  is_number lat = true -> is_number lon = true ->
  displayable_item (ok_item file_path lat lon a) = true
  /\ displayable_item (no_gps_item file_path) = true.
Proof. intros Hlat Hlon. split; [|reflexivity]. simpl. rewrite Hlat, Hlon. reflexivity. Qed.

Lemma is_number_float_object (o : Z) (f : float) :
  is_number (float_object o f) = true.
Proof. unfold float_object. destruct (is_nan f); reflexivity. Qed.

Lemma handle_displayable (e : event) (st : state doc) :
  displayable (history st) = true ->
  from_screen e = true ->
  displayable
    (history (snd (handle json_dump json_partial float_of_text TAGS GPSTAGS e st)))
  = true
  /\ (writable
        (history (snd (handle json_dump json_partial float_of_text TAGS GPSTAGS
                         e st))) = true ->
      fst (handle json_dump json_partial float_of_text TAGS GPSTAGS e st) = Ok tt)
  /\ (fst (handle json_dump json_partial float_of_text TAGS GPSTAGS e st) = Ok tt
      \/ fst (handle json_dump json_partial float_of_text TAGS GPSTAGS e st)
         = Raise UnicodeEncodeError).
Proof.
  intros Hd He.
  destruct (history st) as [| | | | | |l|] eqn:Hh; try discriminate.
  simpl in Hd.
  destruct e as [file_path img requests_get | confirm item]; unfold handle.
  - destruct (upload_image_outcome doc json_dump json_partial
                (fun h => snd (refresh_history h)) float_of_text requests_get
                st file_path (as_dict (extract_exif TAGS GPSTAGS img)))
      as [(l0 & it & Hh0 & _ & Hit & Hh' & Hgood & Hbad)
         | (Hh' & _ & [[-> Hok] | Hs])].
    + rewrite Hh in Hh0. injection Hh0 as <-.
      assert (Hall : forallb displayable_item (l ++ [it]) = true).
      { rewrite forallb_app, Hd. simpl.
        destruct Hit as [-> | (lat & lon & a & ->)]; [reflexivity|].
        rewrite (proj1 (displayable_built file_path _ _ a
                          (is_number_float_object _ lat)
                          (is_number_float_object _ lon))).
        reflexivity. }
      rewrite Hh'. split; [exact Hall|]. split.
      * intros Hw. destruct (Hgood Hw) as [-> _].
        apply refresh_history_ok. exact Hall.
      * destruct (writable (JArr (l ++ [it]))) eqn:Hw.
        -- left. destruct (Hgood eq_refl) as [-> _].
           apply refresh_history_ok. exact Hall.
        -- right. apply (Hbad eq_refl).
    + rewrite Hh', Hh. split; [exact Hd|]. split; [intros _; exact Hok|].
      left. exact Hok.
    + rewrite Hh in Hs. discriminate.
  - simpl in He.
    destruct (json_getkey item "name") as [name|] eqn:Hn; [|discriminate].
    destruct (delete_entry_outcome doc json_dump json_partial
                (fun h => snd (refresh_history h)) st confirm item)
      as [(l0 & l' & name' & Hh0 & _ & _ & Hr & Hh' & Hgood & Hbad)
         | (Hh' & _ & Hok)].
    + rewrite Hh in Hh0. injection Hh0 as <-.
      pose proof (list_remove_forallb _ _ _ _ Hr Hd) as Hd'.
      rewrite Hh'. split; [exact Hd'|].
      assert (Hfst : fst (delete_entry json_dump json_partial
                            (fun h => snd (refresh_history h)) confirm item st)
                     = Ok tt).
      { destruct (writable (JArr l')) eqn:Hw.
        - apply (proj2 (Hgood eq_refl)). apply refresh_history_ok. exact Hd'.
        - apply (Hbad eq_refl). }
      split; [intros _; exact Hfst | left; exact Hfst].
    + rewrite Hh', Hh. split; [exact Hd|].
      split; [intros _|left]; exact (Hok name l Hn Hh).
Qed.

(** X14.  Starting from a history whose items can all be shown (the empty
    one of a first start, say), the history stays one whose items can all
    be shown whatever uploads and deletes the screen offers; none of them
    ends with an exception other than the [UnicodeEncodeError] of a save,
    and none ends with an exception at all when the history it leaves can
    be written. *)
Theorem displayable_history_never_raises (es : list event) (st : state doc) :
  displayable (history st) = true ->
  forallb from_screen es = true ->
  displayable
    (history (run json_dump json_partial float_of_text TAGS GPSTAGS es st))
  = true
  /\ forall es1 e es2,
      es = es1 ++ e :: es2 ->
      (writable
         (history (snd (handle json_dump json_partial float_of_text TAGS GPSTAGS e
                          (run json_dump json_partial float_of_text TAGS GPSTAGS
                             es1 st)))) = true ->
       fst (handle json_dump json_partial float_of_text TAGS GPSTAGS e
              (run json_dump json_partial float_of_text TAGS GPSTAGS es1 st))
       = Ok tt)
      /\ (fst (handle json_dump json_partial float_of_text TAGS GPSTAGS e
                 (run json_dump json_partial float_of_text TAGS GPSTAGS es1 st))
          = Ok tt
          \/ fst (handle json_dump json_partial float_of_text TAGS GPSTAGS e
                    (run json_dump json_partial float_of_text TAGS GPSTAGS es1 st))
             = Raise UnicodeEncodeError).
Proof.
  assert (Hinv : forall es (st : state doc),
             displayable (history st) = true ->
             forallb from_screen es = true ->
             displayable
               (history (run json_dump json_partial float_of_text TAGS GPSTAGS
                           es st))
             = true).
  { clear es st. induction es as [|e es IH]; intros st Hd Hes; simpl;
      [exact Hd|].
    simpl in Hes. apply andb_prop in Hes as [He Hes].
    apply IH; [|exact Hes]. apply handle_displayable; assumption. }
  intros Hd Hes. split; [apply Hinv; assumption|].
  intros es1 e es2 ->.
  rewrite forallb_app in Hes. apply andb_prop in Hes as [H1 H2].
  simpl in H2. apply andb_prop in H2 as [He _].
  apply handle_displayable; [|exact He]. apply Hinv; assumption.
Qed.

(** X15.  A document that cannot be read as JSON counts as an empty history
    and is overwritten by the first upload: afterwards the document holds
    the text of the one new record, or the beginning of it when the record
    holds a text that cannot be encoded, and nothing of what it held
    before. *)
Theorem first_upload_replaces_unreadable_document
    (d : doc) (file_path : string) (img : image)
    (requests_get : float -> float -> http_result) :
  json_load d = None ->
  file_path <> "" ->
  launch json_load (Some d) = Some (start json_load (Some d))
  /\ exists item,
    history (snd (handle json_dump json_partial float_of_text TAGS GPSTAGS
                    (Upload file_path img requests_get)
                    (start json_load (Some d))))
    = JArr [item]
    /\ json_getkey item "path" = Ok (JStr file_path)
    /\ file (snd (handle json_dump json_partial float_of_text TAGS GPSTAGS
                    (Upload file_path img requests_get)
                    (start json_load (Some d))))
       = Some (if writable item then json_dump (JArr [item])
               else json_partial (JArr [item])).
Proof.
  intros Hd Hp.
  assert (Hh : history (start json_load (Some d)) = JArr []).
  { simpl. rewrite Hd. reflexivity. }
  destruct (upload_image_outcome doc json_dump json_partial
              (fun h => snd (refresh_history h)) float_of_text requests_get
              (start json_load (Some d)) file_path
              (as_dict (extract_exif TAGS GPSTAGS img)))
    as [(l0 & it & Hh0 & _ & Hit & Hh' & Hgood & Hbad)
       | (_ & _ & [[Hp' _] | Hs])];
    [| contradiction | rewrite Hh in Hs; discriminate].
  rewrite Hh in Hh0. injection Hh0 as <-.
  split; [unfold launch; rewrite Hh; reflexivity|].
  exists it. unfold handle. split; [exact Hh'|]. split.
  - destruct Hit as [-> | (lat & lon & a & ->)]; reflexivity.
  - simpl app in *. change (writable (JArr [it])) with (writable it && true) in *.
    rewrite andb_true_r in *.
    destruct (writable it).
    + apply (Hgood eq_refl).
    + apply (Hbad eq_refl).
Qed.

End AppFacts.

(** ** The application on the example session *)

Lemma upload_of_image_with_gps_witness :
  history (snd (handle encode cut_short no_text exif_names gps_names
                  (Upload "/photos/c.jpg" (RawTable raw_located) pittsburgh)
                  (saved [photo_a])))
  = JArr [photo_a; photo_c]
  /\ file (snd (handle encode cut_short no_text exif_names gps_names
                  (Upload "/photos/c.jpg" (RawTable raw_located) pittsburgh)
                  (saved [photo_a])))
     = Some (encode (JArr [photo_a; photo_c])).
Proof.
  destruct (upload_of_image_with_gps text encode cut_short no_text exif_names
              gps_names (saved [photo_a]) [photo_a] "/photos/c.jpg" pittsburgh
              raw_located (KId 34853)
              (RTable [(KId 1, VStr "N"); (KId 2, lat_40_26_46);
                       (KId 3, VStr "W"); (KId 4, lon_79_58_36)])
              [(KId 1, VStr "N"); (KId 2, lat_40_26_46);
               (KId 3, VStr "W"); (KId 4, lon_79_58_36)]
              (KId 2) (KId 4) lat_40_26_46 lon_79_58_36
              (dms 40 26 46) (dms 79 58 36)
              eq_refl ltac:(discriminate) eq_refl eq_refl eq_refl eq_refl
              eq_refl eq_refl)
    as (a & item & Ha & Hitem & Hh & Hgood & _).
  injection Ha as <-. subst item.
  split; [exact Hh|]. exact (proj1 (Hgood eq_refl)).
Defined.

Lemma upload_of_image_without_gps_witness :
  history (snd (handle encode cut_short no_text exif_names gps_names
                  (Upload "/photos/a.jpg" (RawTable raw_offset) offline)
                  (saved [photo_b])))
  = JArr [photo_b; photo_a]
  /\ file (snd (handle encode cut_short no_text exif_names gps_names
                  (Upload "/photos/a.jpg" (RawTable raw_offset) offline)
                  (saved [photo_b])))
     = Some (encode (JArr [photo_b; photo_a])).
Proof.
  destruct (upload_of_image_without_gps text encode cut_short no_text
              exif_names gps_names (saved [photo_b]) [photo_b] "/photos/a.jpg"
              offline (RawTable raw_offset) eq_refl)
    as (H1 & H2 & _).
  - discriminate.
  - intros raw [= <-]. reflexivity.
  - split; [exact H1|]. exact (proj1 (H2 eq_refl)).
Defined.

Lemma refresh_history_displayable_witness :
  snd (refresh_history (JArr [photo_a; photo_c])) = Ok tt
  /\ exists rs,
      fst (refresh_history (JArr [photo_a; photo_c])) = Rows rs
      /\ map del_btn rs = [photo_a; photo_c].
Proof.
  destruct (refresh_history_displayable [photo_a; photo_c] eq_refl)
    as (H1 & _ & H3).
  split; [exact H1|].
  destruct (H3 ltac:(discriminate)) as (rs & Hrs & Hmap & _).
  exists rs. split; assumption.
Defined.

Lemma upload_then_delete_restores_witness :
  history (snd (delete_entry encode cut_short draw true photo_b
                  (snd (upload_image encode cut_short draw no_text offline
                          "/photos/b.jpg" [] (saved [photo_a])))))
  = JArr [photo_a]
  /\ file (snd (delete_entry encode cut_short draw true photo_b
                  (snd (upload_image encode cut_short draw no_text offline
                          "/photos/b.jpg" [] (saved [photo_a])))))
     = file (saved [photo_a]).
Proof.
  destruct (upload_then_delete_restores text encode cut_short draw no_text
              offline (saved [photo_a]) [photo_a] "/photos/b.jpg" [] eq_refl
              eq_refl eq_refl ltac:(discriminate)) as (item & H1 & H2).
  assert (Hitem : item = photo_b).
  { change (JArr [photo_a; photo_b] = JArr [photo_a; item]) in H1.
    injection H1 as <-. reflexivity. }
  subst item. apply H2; [reflexivity|].
  intros y [<- | []]. reflexivity.
Defined.

Lemma upload_refused_loses_document_witness :
  fst (upload_image encode cut_short draw no_text garbled "/photos/s.jpg"
         (exif_of (gps_refs "N" "W")) (saved [photo_a]))
  = Raise UnicodeEncodeError
  /\ (exists item,
        history (snd (upload_image encode cut_short draw no_text garbled
                        "/photos/s.jpg" (exif_of (gps_refs "N" "W"))
                        (saved [photo_a])))
        = JArr ([photo_a] ++ [item]))
  /\ load_history decode
       (file (snd (upload_image encode cut_short draw no_text garbled
                     "/photos/s.jpg" (exif_of (gps_refs "N" "W"))
                     (saved [photo_a]))))
     = JArr [].
Proof.
  refine (upload_refused_loses_document text encode cut_short decode draw
            no_text garbled decode_cut_short (saved [photo_a]) [photo_a]
            "/photos/s.jpg" (exif_of (gps_refs "N" "W")) eq_refl _ eq_refl).
  discriminate.
Defined.

Lemma restart_recovers_history_witness :
  load_history decode
    (file (run encode cut_short no_text exif_names gps_names session
             (start decode (Some Garbage))))
  = reloaded
      (history (run encode cut_short no_text exif_names gps_names session
                  (start decode (Some Garbage)))).
Proof.
  refine (proj2 (restart_recovers_history text encode cut_short decode no_text
                   exif_names gps_names decode_encode decode_decoded session
                   (Some Garbage) (start decode (Some Garbage)) eq_refl _)).
  intros [|[|[|[|[|n]]]]]; split; reflexivity.
Defined.

Lemma load_history_null_document_witness :
  load_history decode (Some (Encoded JNull)) = JNull
  /\ is_sequence (load_history decode (Some (Encoded JNull))) = false
  /\ launch decode (Some (Encoded JNull))
     = Some (start decode (Some (Encoded JNull)))
  /\ fst (handle encode cut_short no_text exif_names gps_names
            (Upload "/photos/a.jpg" Unreadable offline)
            (start decode (Some (Encoded JNull))))
     = Raise AttributeError.
Proof.
  destruct (load_history_null_document text encode cut_short decode no_text
              exif_names gps_names (Encoded JNull) "/photos/a.jpg" Unreadable
              offline eq_refl)
    as (_ & _ & H1 & H2 & H3 & H4 & _); [discriminate|].
  split; [exact H1|]. split; [exact H2|]. split; [exact H3 | exact H4].
Defined.

Lemma displayable_history_never_raises_witness :
  displayable
    (history (run encode cut_short no_text exif_names gps_names session
                (start decode None)))
  = true
  /\ fst (handle encode cut_short no_text exif_names gps_names
            (Delete true photo_c)
            (run encode cut_short no_text exif_names gps_names
               [Upload "/photos/c.jpg" (RawTable raw_located) pittsburgh;
                Upload "/photos/a.jpg" Unreadable offline;
                Upload "" NotATable offline]
               (start decode None)))
     = Ok tt.
Proof.
  destruct (displayable_history_never_raises text encode cut_short no_text
              exif_names gps_names session (start decode None) eq_refl eq_refl)
    as [H1 H2].
  split; [exact H1|].
  exact (proj1 (H2 [Upload "/photos/c.jpg" (RawTable raw_located) pittsburgh;
                    Upload "/photos/a.jpg" Unreadable offline;
                    Upload "" NotATable offline]
                   (Delete true photo_c) [] eq_refl) eq_refl).
Defined.

Lemma first_upload_replaces_unreadable_document_witness :
  launch decode (Some Garbage) = Some (start decode (Some Garbage))
  /\ exists item,
    history (snd (handle encode cut_short no_text exif_names gps_names
                    (Upload "/photos/a.jpg" Unreadable offline)
                    (start decode (Some Garbage))))
    = JArr [item]
    /\ json_getkey item "path" = Ok (JStr "/photos/a.jpg")
    /\ file (snd (handle encode cut_short no_text exif_names gps_names
                    (Upload "/photos/a.jpg" Unreadable offline)
                    (start decode (Some Garbage))))
       = Some (if writable item then encode (JArr [item])
               else cut_short (JArr [item])).
Proof.
  refine (first_upload_replaces_unreadable_document text encode cut_short
            decode no_text exif_names gps_names Garbage "/photos/a.jpg"
            Unreadable offline eq_refl _).
  discriminate.
Defined.

(** ** The text of the document *)

Lemma has_surrogate_cons (c c' : ascii) (s : string) :
  has_surrogate (String c (String c' s))
  = ((byte_of c =? 237) && (160 <=? byte_of c'))
    || has_surrogate (String c' s).
Proof. reflexivity. Qed.

(** Whether a text holds a surrogate is seen on its bytes from 128 on:
    an ASCII byte in front of a text, or behind it, changes nothing. *)
Lemma has_surrogate_ascii_cons (c : ascii) (s : string) :
  (byte_of c <? 128) = true ->
  has_surrogate (String c s) = has_surrogate s.
Proof.
  intros Hc. destruct s as [|c' s]; [reflexivity|].
  rewrite has_surrogate_cons.
  assert ((byte_of c =? 237) = false) as -> by (apply Z.eqb_neq; apply Z.ltb_lt in Hc; lia).
  reflexivity.
Qed.

Lemma has_surrogate_ascii_app (a b : string) :
  is_ascii a = true -> has_surrogate (a ++ b) = has_surrogate b.
Proof.
  induction a as [|c a IH]; [reflexivity|]. simpl is_ascii. intros H.
  apply andb_prop in H as [Hc Ha]. simpl append.
  rewrite (has_surrogate_ascii_cons c _ Hc). exact (IH Ha).
Qed.

Lemma has_surrogate_ascii (a : string) :
  is_ascii a = true -> has_surrogate a = false.
Proof.
  induction a as [|c a IH]; [reflexivity|]. simpl is_ascii. intros H.
  apply andb_prop in H as [Hc Ha].
  rewrite (has_surrogate_ascii_cons c a Hc). exact (IH Ha).
Qed.

Lemma has_surrogate_app_ascii (a b : string) (c : ascii) :
  (byte_of c <? 128) = true ->
  has_surrogate (a ++ String c b) = has_surrogate a || has_surrogate b.
Proof.
  intros Hc. induction a as [|x a IH].
  - simpl append. rewrite (has_surrogate_ascii_cons c b Hc). reflexivity.
  - destruct a as [|y a].
    + simpl append. rewrite has_surrogate_cons.
      rewrite (has_surrogate_ascii_cons c b Hc).
      assert ((160 <=? byte_of c) = false) as ->
          by (apply Z.leb_gt; apply Z.ltb_lt in Hc; lia).
      rewrite andb_false_r. reflexivity.
    + change ((String x (String y a) ++ String c b)%string)
        with (String x (String y (a ++ String c b))).
      rewrite !has_surrogate_cons.
      change (String y (a ++ String c b)) with ((String y a ++ String c b)%string).
      rewrite IH. rewrite orb_assoc. reflexivity.
Qed.

Lemma is_ascii_app (a b : string) :
  is_ascii (a ++ b) = is_ascii a && is_ascii b.
Proof.
  induction a as [|c a IH]; [reflexivity|]. simpl. rewrite IH.
  apply andb_assoc.
Qed.

Lemma is_ascii_spaces (n : nat) : is_ascii (spaces n) = true.
Proof. induction n as [|n IH]; [reflexivity|]. exact IH. Qed.

Lemma is_ascii_newline_indent (level : nat) :
  is_ascii (newline_indent level) = true.
Proof. unfold newline_indent. simpl. apply is_ascii_spaces. Qed.

Lemma is_ascii_string_of_uint (d : Decimal.uint) :
  is_ascii (NilEmpty.string_of_uint d) = true.
Proof. induction d; simpl; auto. Qed.

Lemma is_ascii_int_repr (n : Z) : is_ascii (int_repr n) = true.
Proof.
  unfold int_repr, NilZero.string_of_int.
  destruct (Z.to_int n) as [d|d]; unfold NilZero.string_of_uint;
    simpl; destruct d; simpl; auto using is_ascii_string_of_uint.
Qed.

(** An escape is made of ASCII bytes and stands for an ASCII byte, and
    every other byte stays as it is. *)
Lemma escape_cases (c : ascii) :
  (is_ascii (escape c) = true /\ (byte_of c <? 128) = true)
  \/ escape c = String c EmptyString.
Proof.
  destruct c as [[|] [|] [|] [|] [|] [|] [|] [|]]; vm_compute;
    first [right; reflexivity | left; split; reflexivity].
Qed.

Lemma has_surrogate_escaped (s : string) :
  has_surrogate (escaped s) = has_surrogate s
  /\ forall c, has_surrogate (String c (escaped s)) = has_surrogate (String c s).
Proof.
  induction s as [|c' s [IH1 IH2]]; [split; reflexivity|].
  simpl escaped.
  destruct (escape_cases c') as [[Ha Hc] | He].
  - assert (H1 : has_surrogate (escape c' ++ escaped s)
                 = has_surrogate (String c' s)).
    { rewrite (has_surrogate_ascii_app _ _ Ha), IH1.
      symmetry. apply has_surrogate_ascii_cons. exact Hc. }
    split; [exact H1|]. intros c.
    rewrite has_surrogate_cons, <- H1.
    assert (Hlt : (160 <=? byte_of c') = false)
      by (apply Z.leb_gt; apply Z.ltb_lt in Hc; lia).
    rewrite Hlt, andb_false_r. simpl orb.
    destruct (escape c') as [|b rest] eqn:E.
    + simpl append. destruct (escaped s) as [|x t]; [reflexivity|].
      rewrite has_surrogate_cons.
      destruct ((byte_of c =? 237) && (160 <=? byte_of x)) eqn:Hp;
        [|reflexivity].
      exfalso. revert E. clear.
      destruct c' as [[|] [|] [|] [|] [|] [|] [|] [|]]; vm_compute; discriminate.
    + simpl append. rewrite has_surrogate_cons.
      simpl in Ha. apply andb_prop in Ha as [Hb _].
      assert (Hb' : (160 <=? byte_of b) = false)
        by (apply Z.leb_gt; apply Z.ltb_lt in Hb; lia).
      rewrite Hb', andb_false_r. reflexivity.
  - rewrite He. simpl append. split; [apply IH2|]. intros c.
    rewrite !has_surrogate_cons, IH2. reflexivity.
Qed.

Lemma has_surrogate_encode_basestring (s : string) :
  has_surrogate (encode_basestring s) = has_surrogate s.
Proof.
  unfold encode_basestring, quote.
  rewrite (has_surrogate_ascii_app (String (ascii_of_nat 34) EmptyString) _ eq_refl).
  rewrite (has_surrogate_app_ascii (escaped s) EmptyString (ascii_of_nat 34) eq_refl).
  rewrite orb_false_r. apply has_surrogate_escaped.
Qed.

Lemma append_assoc (a b c : string) :
  ((a ++ b) ++ c)%string = (a ++ (b ++ c))%string.
Proof. induction a as [|x a IH]; [reflexivity|]. simpl. rewrite IH. reflexivity. Qed.

Lemma append_empty (a : string) : (a ++ EmptyString)%string = a.
Proof. induction a as [|x a IH]; [reflexivity|]. simpl. rewrite IH. reflexivity. Qed.

Lemma cat_app (ps qs : list string) : cat (ps ++ qs) = (cat ps ++ cat qs)%string.
Proof.
  induction ps as [|p ps IH]; [reflexivity|]. simpl.
  rewrite IH. symmetry. apply append_assoc.
Qed.

(** What reaches the file is the whole text exactly when no piece holds a
    surrogate. *)
Lemma write_all_spec (ps : list string) :
  snd (write_all ps) = forallb (fun p => negb (has_surrogate p)) ps
  /\ (snd (write_all ps) = true -> fst (write_all ps) = cat ps).
Proof.
  induction ps as [|p ps [IH1 IH2]]; [split; reflexivity|]. simpl.
  destruct (has_surrogate p); simpl; [split; [reflexivity|discriminate]|].
  split; [exact IH1|]. intros H. rewrite (IH2 H). reflexivity.
Qed.

Section EncoderFacts.

Variable float_repr : float -> string.

(** The digits, the point, the sign and the exponent mark of a float are
    ASCII. *)
Hypothesis float_repr_ascii : forall f : float, is_ascii (float_repr f) = true.

Lemma is_ascii_floatstr (f : float) : is_ascii (floatstr float_repr f) = true.
Proof.
  unfold floatstr. destruct (is_nan f); [reflexivity|].
  destruct (PrimFloat.eqb f infinity); [reflexivity|].
  destruct (PrimFloat.eqb f neg_infinity); [reflexivity|].
  apply float_repr_ascii.
Qed.

Lemma scalar_surrogate (j : json) (t : string) :
  scalar float_repr j = Some t -> has_surrogate t = negb (writable j).
Proof.
  destruct j as [| b | n | f | o | s | xs | kvs]; simpl; intros [= <-];
    try reflexivity.
  - destruct b; reflexivity.
  - apply has_surrogate_ascii, is_ascii_int_repr.
  - apply has_surrogate_ascii, is_ascii_floatstr.
  - rewrite has_surrogate_encode_basestring, negb_involutive. reflexivity.
Qed.

Lemma scalar_pieces (level : nat) (j : json) (t : string) :
  scalar float_repr j = Some t -> pieces float_repr level j = [t].
Proof.
  destruct j as [| b | n | f | o | s | xs | kvs]; simpl; intros [= <-];
    reflexivity.
Qed.

Lemma items_written (enc : json -> list string) (sep buf : string)
    (l : list json) :
  is_ascii sep = true ->
  is_ascii buf = true ->
  Forall (fun x => forallb (fun p => negb (has_surrogate p)) (enc x)
                   = writable x) l ->
  forallb (fun p => negb (has_surrogate p)) (items float_repr enc sep buf l)
  = forallb writable l.
Proof.
  intros Hsep. revert buf.
  induction l as [|x l IH]; intros buf Hbuf Hl; [reflexivity|].
  inversion Hl as [|? ? Hx Hl']; subst. simpl.
  rewrite forallb_app, (IH sep Hsep Hl'). f_equal.
  destruct (scalar float_repr x) as [t|] eqn:E; simpl.
  - rewrite (has_surrogate_ascii_app _ _ Hbuf), (scalar_surrogate x t E).
    rewrite negb_involutive. apply andb_true_r.
  - rewrite (has_surrogate_ascii _ Hbuf). exact Hx.
Qed.

Lemma members_written (enc : json -> list string) (sep : string)
    (first : bool) (l : list (string * json)) :
  is_ascii sep = true ->
  Forall (fun kv => forallb (fun p => negb (has_surrogate p)) (enc (snd kv))
                    = writable (snd kv)) l ->
  forallb (fun p => negb (has_surrogate p)) (members enc sep first l)
  = forallb (fun kv => negb (has_surrogate (fst kv)) && writable (snd kv)) l.
Proof.
  intros Hsep. revert first.
  induction l as [|[k v] l IH]; intros first Hl; [reflexivity|].
  inversion Hl as [|? ? Hv Hl']; subst. simpl in Hv.
  cbn -[encode_basestring has_surrogate].
  rewrite forallb_app. cbn -[encode_basestring has_surrogate].
  rewrite forallb_app, (IH false Hl'), Hv, has_surrogate_encode_basestring.
  change (has_surrogate ": ") with false.
  destruct first; cbn -[has_surrogate];
    rewrite ?(has_surrogate_ascii _ Hsep);
    destruct (has_surrogate k), (writable v), (forallb _ l); reflexivity.
Qed.

Lemma is_ascii_separator (level : nat) :
  is_ascii ("," ++ newline_indent level) = true.
Proof. simpl. apply is_ascii_spaces. Qed.

Lemma is_ascii_opening (level : nat) :
  is_ascii ("[" ++ newline_indent level) = true.
Proof. simpl. apply is_ascii_spaces. Qed.

(** The pieces of a value hold no surrogate exactly when its texts hold
    none. *)
Lemma pieces_written (j : json) :
  forall level : nat,
    forallb (fun p => negb (has_surrogate p)) (pieces float_repr level j)
    = writable j.
Proof.
  induction j as [| b | n | f | o | s | xs IH | kvs IH] using json_induction;
    intros level;
    try (destruct (scalar float_repr _) as [t|] eqn:E in |- *; fail).
  - reflexivity.
  - destruct b; reflexivity.
  - simpl. rewrite (has_surrogate_ascii _ (is_ascii_int_repr n)). reflexivity.
  - simpl. rewrite (has_surrogate_ascii _ (is_ascii_floatstr f)). reflexivity.
  - reflexivity.
  - cbn -[encode_basestring has_surrogate].
    rewrite has_surrogate_encode_basestring. apply andb_true_r.
  - destruct xs as [|x xs]; [reflexivity|].
    change (pieces float_repr level (JArr (x :: xs)))
      with (items float_repr (pieces float_repr (S level))
              ("," ++ newline_indent (S level))
              ("[" ++ newline_indent (S level)) (x :: xs)
            ++ [newline_indent level; "]"]).
    rewrite forallb_app.
    rewrite (items_written _ _ _ _ (is_ascii_separator _) (is_ascii_opening _)).
    + cbn [forallb].
      rewrite (has_surrogate_ascii _ (is_ascii_newline_indent level)).
      change (has_surrogate "]") with false.
      change (writable (JArr (x :: xs))) with (writable x && forallb writable xs).
      cbn [negb andb]. rewrite !andb_true_r. reflexivity.
    + eapply Forall_impl; [|exact IH]. intros y Hy. apply Hy.
  - destruct kvs as [|kv kvs]; [reflexivity|].
    change (pieces float_repr level (JObj (kv :: kvs)))
      with ("{" :: newline_indent (S level)
            :: members (pieces float_repr (S level))
                 ("," ++ newline_indent (S level)) true (kv :: kvs)
               ++ [newline_indent level; "}"]).
    cbn [forallb].
    rewrite (has_surrogate_ascii _ (is_ascii_newline_indent (S level))).
    rewrite forallb_app.
    rewrite (members_written _ _ _ _ (is_ascii_separator _)).
    + cbn [forallb].
      rewrite (has_surrogate_ascii _ (is_ascii_newline_indent level)).
      change (has_surrogate "}") with false.
      change (has_surrogate "{") with false.
      cbn [negb andb]. rewrite !andb_true_r. reflexivity.
    + eapply Forall_impl; [|exact IH]. intros y Hy. apply Hy.
Qed.

Lemma cat_item (level : nat) (buf : string) (x : json) :
  cat match scalar float_repr x with
      | Some t => [(buf ++ t)%string]
      | None => buf :: pieces float_repr level x
      end
  = (buf ++ cat (pieces float_repr level x))%string.
Proof.
  destruct (scalar float_repr x) as [t|] eqn:E; [|reflexivity].
  rewrite (scalar_pieces level x t E). simpl. apply append_assoc.
Qed.

(** The text of the items of a list: the text of each, in the order of the
    list, with the separator between one and the next. *)
Lemma items_text (level : nat) (sep buf : string) (x : json) (l : list json) :
  cat (items float_repr (pieces float_repr level) sep buf (x :: l))
  = (buf ++ join sep (map (fun y => cat (pieces float_repr level y)) (x :: l)))%string.
Proof.
  revert buf x. induction l as [|y l IH]; intros buf x.
  - cbn [items map join]. rewrite app_nil_r. apply cat_item.
  - change (items float_repr (pieces float_repr level) sep buf (x :: y :: l))
      with (match scalar float_repr x with
            | Some t => [(buf ++ t)%string]
            | None => buf :: pieces float_repr level x
            end
            ++ items float_repr (pieces float_repr level) sep sep (y :: l)).
    rewrite cat_app, cat_item, IH, append_assoc. reflexivity.
Qed.

Lemma array_text (level : nat) (x : json) (l : list json) :
  cat (pieces float_repr level (JArr (x :: l)))
  = ("[" ++ newline_indent (S level)
     ++ join ("," ++ newline_indent (S level))
          (map (fun y => cat (pieces float_repr (S level) y)) (x :: l))
     ++ newline_indent level ++ "]")%string.
Proof.
  change (pieces float_repr level (JArr (x :: l)))
    with (items float_repr (pieces float_repr (S level))
            ("," ++ newline_indent (S level))
            ("[" ++ newline_indent (S level)) (x :: l)
          ++ [newline_indent level; "]"]).
  rewrite cat_app, items_text. cbn [cat].
  rewrite !append_assoc, append_empty. reflexivity.
Qed.

(** C9.  Two calls of [save_history] in a row, nothing changed in between,
    end in the same way and leave the same document: the file is emptied
    and written anew from the sequence in memory, which no call changes.
    What is written are the pieces of the encoder up to the first that
    cannot be encoded, all of them when the call ends well; the whole text
    of a sequence is an opening bracket, the texts of its items in the
    order of the sequence, one per line after a comma, and the closing
    bracket. *)
Theorem save_history_twice (st : state string) :
  save_history (dumps float_repr) (dumps_partial float_repr)
    (snd (save_history (dumps float_repr) (dumps_partial float_repr) st))
  = save_history (dumps float_repr) (dumps_partial float_repr) st
  /\ history (snd (save_history (dumps float_repr) (dumps_partial float_repr) st))
     = history st
  /\ file (snd (save_history (dumps float_repr) (dumps_partial float_repr) st))
     = Some (fst (write_all (pieces float_repr 0 (history st))))
  /\ (fst (save_history (dumps float_repr) (dumps_partial float_repr) st) = Ok tt
      <-> snd (write_all (pieces float_repr 0 (history st))) = true)
  /\ (forall x l,
        history st = JArr (x :: l) ->
        fst (save_history (dumps float_repr) (dumps_partial float_repr) st)
        = Ok tt ->
        file (snd (save_history (dumps float_repr) (dumps_partial float_repr)
                     (snd (save_history (dumps float_repr)
                             (dumps_partial float_repr) st))))
        = Some ("[" ++ newline_indent 1
                ++ join ("," ++ newline_indent 1)
                     (map (fun y => cat (pieces float_repr 1 y)) (x :: l))
                ++ newline_indent 0 ++ "]")%string).
Proof.
  destruct (write_all_spec (pieces float_repr 0 (history st))) as [Hs Hf].
  rewrite pieces_written in Hs.
  destruct (writable (history st)) eqn:Hw.
  - rewrite (save_history_written _ _ _ st Hw). cbn [fst snd history file].
    rewrite save_history_written by exact Hw.
    cbn [fst snd history file status next_id].
    split; [reflexivity|]. split; [reflexivity|]. split.
    { unfold dumps. rewrite (Hf Hs). reflexivity. }
    split; [split; intros _; [exact Hs | reflexivity]|].
    intros x l Hh _. unfold dumps. rewrite Hh, array_text. reflexivity.
  - rewrite (save_history_refused _ _ _ st Hw). cbn [fst snd history file].
    rewrite save_history_refused by exact Hw.
    cbn [fst snd history file status next_id].
    split; [reflexivity|]. split; [reflexivity|]. split; [reflexivity|].
    split; [split; intros H; [discriminate | congruence]|].
    intros x l _ H. discriminate.
Qed.

End EncoderFacts.

Lemma is_ascii_exact_repr (f : float) : is_ascii (exact_repr f) = true.
Proof.
  unfold exact_repr. destruct (Prim2SF f) as [s|s| |s m e];
    try (destruct s; reflexivity); try reflexivity.
  rewrite !is_ascii_app, !is_ascii_int_repr. destruct s; reflexivity.
Qed.

Lemma save_history_twice_witness :
  save_history (dumps exact_repr) (dumps_partial exact_repr)
    (snd (save_history (dumps exact_repr) (dumps_partial exact_repr)
            (State (JArr [photo_a; photo_c]) None NoLabel 0)))
  = save_history (dumps exact_repr) (dumps_partial exact_repr)
      (State (JArr [photo_a; photo_c]) None NoLabel 0)
  /\ file (snd (save_history (dumps exact_repr) (dumps_partial exact_repr)
                  (snd (save_history (dumps exact_repr) (dumps_partial exact_repr)
                          (State (JArr [photo_a; photo_c]) None NoLabel 0)))))
     = Some ("[" ++ newline_indent 1
             ++ join ("," ++ newline_indent 1)
                  [cat (pieces exact_repr 1 photo_a);
                   cat (pieces exact_repr 1 photo_c)]
             ++ newline_indent 0 ++ "]")%string.
Proof.
  destruct (save_history_twice exact_repr is_ascii_exact_repr
              (State (JArr [photo_a; photo_c]) None NoLabel 0))
    as (H1 & _ & _ & _ & H2).
  split; [exact H1|]. exact (H2 photo_a [photo_c] eq_refl eq_refl).
Defined.

